(** * An SNTP client over a pluggable transport: the query engine of package ntp

    The development embeds the Go sources of the package: the default UDP
    transport ([MakeDefaultHandler]) and the query engine ([getTime],
    [QueryWithOptions], [Query], [TimeV], [Time]).  The packet type, the
    timestamp conversions and [parseTime] are used by the engine but declared
    in another file of the package; they are modelled from the written
    specification and marked as such.

    Conventions.
    - Go's fixed-width integers are integers of [Z] with the wrap-around
      written out where a conversion or a shift can overflow.
    - A byte slice is a [list byte]; a nil slice and an empty slice are both
      the empty list (the engine only reads slices).
    - A Go result [(v, err)] is a pair whose second component is an
      [option error], [None] being the nil error.
    - The system clock, the random source and the transport are effects:
      the engine runs in a small state monad over a [World] that counts
      clock readings and random draws and logs every transport call. *)

From Stdlib Require Import ZArith List Bool Lia.
From Stdlib.Strings Require Import String Ascii Byte.
Import ListNotations.

#[local] Open Scope Z_scope.

(** ** Bytes and big-endian integers *)

Module Bytes.

Definition to_Z (b : byte) : Z := Z.of_N (Byte.to_N b).

(** Conversion [uint8(v)]: the low eight bits. *)
Definition of_Z (v : Z) : byte :=
  match Byte.of_N (Z.to_N (v mod 256)) with
  | Some b => b
  | None => x00
  end.

(** [binary.BigEndian]: the unsigned integer held by a run of bytes. *)
Definition be_uint (bs : list byte) : Z :=
  fold_left (fun acc b => acc * 256 + to_Z b) bs 0.

(** The [n] low bytes of [v], most significant first. *)
Fixpoint be_bytes (n : nat) (v : Z) : list byte :=
  match n with
  | O => []
  | S k => be_bytes k (v / 256) ++ [of_Z v]
  end.

(** Two's complement reading of a [bits]-wide unsigned value. *)
Definition signed (bits : Z) (v : Z) : Z :=
  if v <? 2 ^ (bits - 1) then v else v - 2 ^ bits.

Definition slice (off len : nat) (bs : list byte) : list byte :=
  firstn len (skipn off bs).

Definition zeros (n : nat) : list byte := repeat x00 n.

End Bytes.

(** ** Errors

    [errors_New s] is the value of [errors.New(s)] in the engine;
    [io_EOF] and [io_ErrUnexpectedEOF] are the two sentinels [binary.Read]
    returns on short input; [Foreign s] is any error value created outside
    the engine (by a transport, by the network stack, by [Validate]). *)

Inductive error : Type :=
| errors_New (s : string)
| io_EOF
| io_ErrUnexpectedEOF
| Foreign (s : string).

(** The specification's names for the engine's own errors. *)
Definition InvalidVersion : error := errors_New "invalid protocol version requested".
Definition ClockRanBackwards : error := errors_New "client clock ticked backwards".
Definition UnexpectedMode : error := errors_New "invalid mode in response".
Definition InvalidTransmitTime : error := errors_New "invalid transmit time in response".
Definition OriginMismatch : error := errors_New "server response mismatch".
Definition ServerClockRanBackwards : error := errors_New "server clock ticked backwards".

(** ** Calendar time ([time.Time], [time.Duration])

    A [time_Time] carries a wall-clock reading, here in nanoseconds since the NTP
    epoch 1900-01-01T00:00:00Z, and an optional monotonic reading.
    [time.Now] attaches a monotonic reading since Go 1.9 and none before. *)

Definition Duration := Z.

Record time_Time : Type := mkTime { wall : Z; mono : option Z }.

Definition minDuration : Duration := - 2 ^ 63.
Definition maxDuration : Duration := 2 ^ 63 - 1.

(** [t.Sub(u)]: the monotonic readings decide when both are present, the
    wall clock otherwise; the result saturates at the ends of [int64]. *)
Definition Sub (t u : time_Time) : Duration :=
  let d := match mono t, mono u with
           | Some a, Some b => a - b
           | _, _ => wall t - wall u
           end in
  Z.max minDuration (Z.min maxDuration d).

(** [t.Add(d)] moves both readings. *)
Definition Add (t : time_Time) (d : Duration) : time_Time :=
  {| wall := wall t + d; mono := option_map (fun m => m + d) (mono t) |}.

Definition nanoPerSec : Z := 1000000000.

(** ** Wire codec *)

Definition ntpTime := Z.

(** Modelled from the spec: the declaration of [toNtpTime] is missing from
    the sources.  "seconds field = calendarTime - NTP epoch (seconds,
    truncated), fraction field = remainder scaled to 32 bits"; the seconds
    field is 32 bits wide and unsigned. *)
Definition toNtpTime (t : time_Time) : ntpTime :=
  let sec := wall t / nanoPerSec in
  let frac := Z.shiftl (wall t mod nanoPerSec) 32 / nanoPerSec in
  Z.lor (Z.shiftl (sec mod 2 ^ 32) 32) frac.

(** Modelled from the spec: the declaration of the method [ntpTime.Time] is
    missing from the sources.  "calendar time = NTP epoch + seconds +
    fraction/2^32", as nanoseconds since the epoch. *)
Definition toTime (t : ntpTime) : Z :=
  Z.shiftr t 32 * nanoPerSec
  + Z.shiftr (Z.land t 4294967295 * nanoPerSec) 32.

(** Modelled from the spec: the declaration of the packet type [msg] is
    missing from the sources; the fields, their order and their widths are
    those of the specification's table. *)
Record msg : Type := mkMsg {
  LiVnMode : Z;        (* uint8: leap indicator (2), version (3), mode (3) *)
  Stratum : Z;         (* uint8 *)
  Poll : Z;            (* 1 byte *)
  Precision : Z;       (* 1 byte, signed *)
  RootDelay : Z;       (* 4 bytes, signed 16.16 *)
  RootDispersion : Z;  (* 4 bytes, unsigned 16.16 *)
  ReferenceID : Z;     (* uint32 *)
  ReferenceTime : ntpTime;
  OriginTime : ntpTime;
  ReceiveTime : ntpTime;
  TransmitTime : ntpTime
}.

(** [new(msg)]: every field zero. *)
Definition new_msg : msg := mkMsg 0 0 0 0 0 0 0 0 0 0 0.

Definition with_LiVnMode (m : msg) (v : Z) : msg :=
  mkMsg v (Stratum m) (Poll m) (Precision m) (RootDelay m) (RootDispersion m)
        (ReferenceID m) (ReferenceTime m) (OriginTime m) (ReceiveTime m)
        (TransmitTime m).

Definition with_OriginTime (m : msg) (v : ntpTime) : msg :=
  mkMsg (LiVnMode m) (Stratum m) (Poll m) (Precision m) (RootDelay m)
        (RootDispersion m) (ReferenceID m) (ReferenceTime m) v (ReceiveTime m)
        (TransmitTime m).

Definition with_TransmitTime (m : msg) (v : ntpTime) : msg :=
  mkMsg (LiVnMode m) (Stratum m) (Poll m) (Precision m) (RootDelay m)
        (RootDispersion m) (ReferenceID m) (ReferenceTime m) (OriginTime m)
        (ReceiveTime m) v.

(** Modelled from the spec: the mode and leap enumerations and the default
    version are constants declared in the missing file. *)
Definition client : Z := 3.
Definition server : Z := 4.
Definition LeapNotInSync : Z := 3.
Definition defaultNtpVersion : Z := 4.

(** Modelled from the spec: the header helpers are declared in the missing
    file.  Each is a read-modify-write of the one packed byte
    (leap:2, version:3, mode:3) that leaves the other two sub-fields alone;
    the shifted operand is a [uint8] and wraps. *)
Definition setMode (m : msg) (md : Z) : msg :=
  with_LiVnMode m (Z.lor (Z.land (LiVnMode m) 248) (md mod 256)).

Definition setVersion (m : msg) (v : Z) : msg :=
  with_LiVnMode m (Z.lor (Z.land (LiVnMode m) 199) (Z.shiftl (v mod 256) 3 mod 256)).

Definition setLeap (m : msg) (li : Z) : msg :=
  with_LiVnMode m (Z.lor (Z.land (LiVnMode m) 63) (Z.shiftl (li mod 256) 6 mod 256)).

Definition getMode (m : msg) : Z := Z.land (LiVnMode m) 7.
Definition getVersion (m : msg) : Z := Z.land (Z.shiftr (LiVnMode m) 3) 7.
Definition getLeap (m : msg) : Z := Z.land (Z.shiftr (LiVnMode m) 6) 3.

Definition msgSize : nat := 48.

(** The 48 bytes of a packet: the fields in table order, big-endian. *)
Definition encode (m : msg) : list byte :=
  Bytes.be_bytes 1 (LiVnMode m) ++ Bytes.be_bytes 1 (Stratum m)
  ++ Bytes.be_bytes 1 (Poll m) ++ Bytes.be_bytes 1 (Precision m)
  ++ Bytes.be_bytes 4 (RootDelay m) ++ Bytes.be_bytes 4 (RootDispersion m)
  ++ Bytes.be_bytes 4 (ReferenceID m) ++ Bytes.be_bytes 8 (ReferenceTime m)
  ++ Bytes.be_bytes 8 (OriginTime m) ++ Bytes.be_bytes 8 (ReceiveTime m)
  ++ Bytes.be_bytes 8 (TransmitTime m).

Definition decode (bs : list byte) : msg :=
  let u off len := Bytes.be_uint (Bytes.slice off len bs) in
  {| LiVnMode := u 0%nat 1%nat;
     Stratum := u 1%nat 1%nat;
     Poll := u 2%nat 1%nat;
     Precision := Bytes.signed 8 (u 3%nat 1%nat);
     RootDelay := Bytes.signed 32 (u 4%nat 4%nat);
     RootDispersion := u 8%nat 4%nat;
     ReferenceID := u 12%nat 4%nat;
     ReferenceTime := u 16%nat 8%nat;
     OriginTime := u 24%nat 8%nat;
     ReceiveTime := u 32%nat 8%nat;
     TransmitTime := u 40%nat 8%nat |}.

(** [binary.Write(w, binary.BigEndian, m)] into an in-memory buffer: a
    struct of fixed-size fields always serialises. *)
Definition binary_Write (m : msg) : list byte * option error :=
  (encode m, None).

(** [binary.Read(bytes.NewReader(buf), binary.BigEndian, m)]: the first 48
    bytes are consumed in full or the read fails, with [io.EOF] when the
    reader is empty and [io.ErrUnexpectedEOF] when it runs dry midway. *)
Definition binary_Read (buf : list byte) : msg + error :=
  match buf with
  | [] => inr io_EOF
  | _ => if (List.length buf <? msgSize)%nat then inr io_ErrUnexpectedEOF
         else inl (decode buf)
  end.

(** [binary.BigEndian.Uint64(bits)] reads the first eight bytes. *)
Definition Uint64 (bits : list byte) : Z := Bytes.be_uint (firstn 8 bits).

(** ** The response record

    Modelled from the spec: the declarations of [Response] and [parseTime]
    are missing from the sources.  With t1 the corrected origin time, t2 and
    t3 the server's receive and transmit times and t4 the local receive
    timestamp, each read as a calendar time: "RoundTripDelay = (t4 - t1) -
    (t3 - t2)", "ClockOffset = ((t2 - t1) + (t3 - t4)) / 2", "RootDistance =
    RootDelay/2 + RootDispersion", the remaining fields "verbatim from the
    reply".  Durations are in nanoseconds and a division of durations
    truncates, as Go's does. *)
Record Response : Type := mkResponse {
  SendTime : Z;
  RecvTime : Z;
  ServerTime : Z;
  ClockOffset : Duration;
  RoundTripDelay : Duration;
  RespPrecision : Z;
  RespStratum : Z;
  RespReferenceID : Z;
  RespRootDelay : Duration;
  RespRootDispersion : Duration;
  RootDistance : Duration;
  RespLeap : Z;
  RespPoll : Z
}.

(** A 16.16 fixed-point number of seconds, in nanoseconds. *)
Definition shortDuration (v : Z) : Duration := Z.shiftr (v * nanoPerSec) 16.

Definition parseTime (m : msg) (recvTime : ntpTime) : Response :=
  let t1 := toTime (OriginTime m) in
  let t2 := toTime (ReceiveTime m) in
  let t3 := toTime (TransmitTime m) in
  let t4 := toTime recvTime in
  let rootDelay := shortDuration (RootDelay m) in
  let rootDispersion := shortDuration (RootDispersion m) in
  {| SendTime := t1;
     RecvTime := t4;
     ServerTime := t3;
     ClockOffset := Z.quot ((t2 - t1) + (t3 - t4)) 2;
     RoundTripDelay := (t4 - t1) - (t3 - t2);
     RespPrecision := Precision m;
     RespStratum := Stratum m;
     RespReferenceID := ReferenceID m;
     RespRootDelay := rootDelay;
     RespRootDispersion := rootDispersion;
     RootDistance := Z.quot rootDelay 2 + rootDispersion;
     RespLeap := getLeap m;
     RespPoll := Poll m |}.

(** ** The world the engine runs in *)

(** What the engine cannot control: the successive readings of the system
    clock and the successive outcomes of [crypto/rand]. *)
Record Env : Type := mkEnv {
  clock : nat -> time_Time;
  random : nat -> list byte + error
}.

(** What a run changes: how many clock readings and random draws were
    consumed, and the requests handed to the transport, oldest first. *)
Record World : Type := mkWorld {
  ticks : nat;
  draws : nat;
  sent : list (list byte)
}.

(** A computation either ends with a value and a new world, or panics
    ([None]), as a nil pointer dereference does. *)
Definition M (A : Type) : Type := World -> option (A * World).

Definition ret {A} (a : A) : M A := fun w => Some (a, w).

Definition bind {A B} (c : M A) (k : A -> M B) : M B :=
  fun w => match c w with
           | Some (a, w') => k a w'
           | None => None
           end.

Definition panic {A} : M A := fun _ => None.

Declare Scope go_scope.
Delimit Scope go_scope with go.
Notation "x <- c ;; k" := (bind c (fun x => k))
  (at level 61, c at next level, right associativity) : go_scope.
Notation "' p <- c ;; k" := (bind c (fun x => let 'p := x in k))
  (at level 61, p pattern, c at next level, right associativity) : go_scope.

(** The transport: request bytes in, reply bytes and an error out. *)
Definition RawFunc : Type := list byte -> list byte * option error.

Record QueryOptions : Type := mkOptions { Version : Z }.

Section Engine.

Variable env : Env.

(** [time.Now()]. *)
Definition time_Now : M time_Time :=
  fun w => Some (clock env (ticks w), mkWorld (S (ticks w)) (draws w) (sent w)).

(** [time.Since(t)] is [time.Now().Sub(t)]. *)
Definition time_Since (t : time_Time) : M Duration :=
  (now <- time_Now ;; ret (Sub now t))%go.

(** [rand.Read(bits)] on a zeroed buffer of [n] bytes: the buffer after the
    call and the error.  A successful read fills the whole buffer. *)
Definition rand_Read (n : nat) : M (list byte * option error) :=
  fun w =>
    let r := match random env (draws w) with
             | inl src => (firstn n (src ++ Bytes.zeros n), None)
             | inr e => (Bytes.zeros n, Some e)
             end in
    Some (r, mkWorld (ticks w) (S (draws w)) (sent w)).

(** One call of the transport function. *)
Definition call (rawFunc : RawFunc) (data : list byte) : M (list byte * option error) :=
  fun w => Some (rawFunc data, mkWorld (ticks w) (draws w) (sent w ++ [data])).

(** [getTime] performs the NTP server query and returns the response
    message along with the local system time it was received. *)
Definition getTime (rawFunc : RawFunc) (opt : QueryOptions)
  : M (option msg * ntpTime * option error) :=
  (let version := if Version opt =? 0 then defaultNtpVersion else Version opt in
   if (version <? 2) || (version >? 4) then
     ret (None, 0, Some InvalidVersion)
   else
     let xmitMsg := new_msg in
     let xmitMsg := setMode xmitMsg client in
     let xmitMsg := setVersion xmitMsg version in
     let xmitMsg := setLeap xmitMsg LeapNotInSync in
     '(bits, err) <- rand_Read 8 ;;
     '(xmitMsg, xmitTime) <-
        match err with
        | None =>
            let xmitMsg := with_TransmitTime xmitMsg (Uint64 bits) in
            xmitTime <- time_Now ;;
            ret (xmitMsg, xmitTime)
        | Some _ =>
            xmitTime <- time_Now ;;
            ret (with_TransmitTime xmitMsg (toNtpTime xmitTime), xmitTime)
        end ;;
     let '(rawData, err) := binary_Write xmitMsg in
     match err with
     | Some e => ret (None, 0, Some e)
     | None =>
         (* the transport's error is assigned to err and overwritten by the
            result of binary.Read below before anything reads it *)
         '(recBuf, _) <- call rawFunc rawData ;;
         match binary_Read recBuf with
         | inr e => ret (None, 0, Some e)
         | inl recvMsg =>
             delta <- time_Since xmitTime ;;
             if delta <? 0 then
               ret (None, 0, Some ClockRanBackwards)
             else
               let recvTime := toNtpTime (Add xmitTime delta) in
               if negb (getMode recvMsg =? server) then
                 ret (None, 0, Some UnexpectedMode)
               else if TransmitTime recvMsg =? 0 then
                 ret (None, 0, Some InvalidTransmitTime)
               else if negb (OriginTime recvMsg =? TransmitTime xmitMsg) then
                 ret (None, 0, Some OriginMismatch)
               else if ReceiveTime recvMsg >? TransmitTime recvMsg then
                 ret (None, 0, Some ServerClockRanBackwards)
               else
                 ret (Some (with_OriginTime recvMsg (toNtpTime xmitTime)),
                      recvTime, None)
         end
     end)%go.

(** [parseTime] dereferences its message: a nil pointer panics. *)
Definition deref (m : option msg) : M msg :=
  match m with
  | Some v => ret v
  | None => panic
  end.

(** [QueryWithOptions] performs the same function as [Query] but allows for
    the customization of several query options. *)
Definition QueryWithOptions (rawFunc : RawFunc) (opt : QueryOptions)
  : M (option Response * option error) :=
  ('(m, now, err) <- getTime rawFunc opt ;;
   match err with
   | Some e => ret (None, Some e)
   | None => v <- deref m ;; ret (Some (parseTime v now), None)
   end)%go.

(** [Query] returns a response from the remote NTP server host. *)
Definition Query (rawFunc : RawFunc) : M (option Response * option error) :=
  QueryWithOptions rawFunc (mkOptions 0).

(** The method [Response.Validate] is declared in another file of the
    package; the helpers below are verified for every implementation of it. *)
Variable Validate : Response -> option error.

(** [TimeV] returns the current time using information from a remote NTP
    server.  On error, it returns the local system time. *)
Definition TimeV (rawFunc : RawFunc) (version : Z) : M (time_Time * option error) :=
  ('(m, recvTime, err) <- getTime rawFunc (mkOptions version) ;;
   match err with
   | Some e => t <- time_Now ;; ret (t, Some e)
   | None =>
       v <- deref m ;;
       let r := parseTime v recvTime in
       match Validate r with
       | Some e => t <- time_Now ;; ret (t, Some e)
       | None => t <- time_Now ;; ret (Add t (ClockOffset r), None)
       end
   end)%go.

(** [Time] uses version 4 of the NTP protocol. *)
Definition Time (rawFunc : RawFunc) : M (time_Time * option error) :=
  TimeV rawFunc defaultNtpVersion.

End Engine.

(** ** The default transport

    The network stack as the handler sees it: name resolution, dialling, and
    the three operations of the connection it uses.  A read delivers a
    datagram payload, of which the caller's buffer receives as many leading
    bytes as it has room for. *)

Definition UDPAddr := string.

Record UDPConn : Type := mkConn {
  SetTTL : Z -> option error;
  conn_Write : time_Time -> list byte -> nat * option error;
  conn_Read : time_Time -> list byte * option error
}.

Record Net : Type := mkNet {
  ResolveUDPAddr : string -> string -> UDPAddr + error;
  DialUDP : string -> option UDPAddr -> UDPAddr -> UDPConn + error;
  net_Now : time_Time
}.

Fixpoint has_colon (s : string) : bool :=
  match s with
  | EmptyString => false
  | String c r => if Ascii.eqb c ":"%char then true else has_colon r
  end.

(** [net.JoinHostPort]: a host with a colon in it is bracketed. *)
Definition JoinHostPort (host port : string) : string :=
  if has_colon host then ("[" ++ host ++ "]:" ++ port)%string
  else (host ++ ":" ++ port)%string.

(** [copy(buf, payload)] as a read performs it: the bytes beyond the payload
    keep what the buffer held. *)
Definition read_into (buf payload : list byte) : list byte :=
  firstn (List.length buf) payload ++ skipn (List.length payload) buf.

Definition Second : Duration := 1000000000.

Definition MakeDefaultHandler (net : Net)
    (Host Protocol Port LocalAddress : string) (TTL : Z) (Timeout : Duration)
  : RawFunc :=
  let Timeout := if Timeout =? 0 then 5 * Second else Timeout in
  let Protocol := if String.eqb Protocol "" then "udp"%string else Protocol in
  let Port := if String.eqb Port "" then "123"%string else Port in
  fun data =>
    match ResolveUDPAddr net Protocol (JoinHostPort Host Port) with
    | inr err => ([], Some err)
    | inl raddr =>
        let local :=
          if negb (String.eqb LocalAddress "") then
            match ResolveUDPAddr net Protocol (JoinHostPort LocalAddress "0") with
            | inr err => inr err
            | inl a => inl (Some a)
            end
          else inl None in
        match local with
        | inr err => ([], Some err)
        | inl laddr =>
            match DialUDP net Protocol laddr raddr with
            | inr err => ([], Some err)
            | inl con =>
                match (if negb (TTL =? 0) then SetTTL con TTL else None) with
                | Some err => ([], Some err)
                | None =>
                    let deadline := Add (net_Now net) Timeout in
                    match snd (conn_Write con deadline data) with
                    | Some err => ([], Some err)
                    | None =>
                        let recvMsg := Bytes.zeros (List.length data) in
                        let '(payload, err) := conn_Read con deadline in
                        let recvMsg := read_into recvMsg payload in
                        match err with
                        | Some err => ([], Some err)
                        | None => (recvMsg, None)
                        end
                    end
                end
            end
        end
    end.

(** ** Vocabulary for the statements

    The quantities [getTime] computes on the way, as functions of the
    environment and of the world the call starts in. *)

Definition effectiveVersion (opt : QueryOptions) : Z :=
  if Version opt =? 0 then defaultNtpVersion else Version opt.

Definition validVersion (opt : QueryOptions) : bool :=
  negb ((effectiveVersion opt <? 2) || (effectiveVersion opt >? 4)).

(** The local send instant: the first clock reading of the call. *)
Definition xmitTimeOf (env : Env) (w : World) : time_Time := clock env (ticks w).

(** The measured delta: the second clock reading against the first. *)
Definition deltaOf (env : Env) (w : World) : Duration :=
  Sub (clock env (S (ticks w))) (xmitTimeOf env w).

(** The value placed in the request's TransmitTime field. *)
Definition sentTransmitTime (env : Env) (w : World) : ntpTime :=
  match random env (draws w) with
  | inl src => Uint64 (firstn 8 (src ++ Bytes.zeros 8))
  | inr _ => toNtpTime (xmitTimeOf env w)
  end.

(** The request message. *)
Definition xmitMsgOf (env : Env) (w : World) (opt : QueryOptions) : msg :=
  with_TransmitTime
    (setLeap (setVersion (setMode new_msg client) (effectiveVersion opt)) LeapNotInSync)
    (sentTransmitTime env w).

(** The worlds after the transport call and after the second clock reading. *)
Definition afterCall (env : Env) (w : World) (opt : QueryOptions) : World :=
  mkWorld (S (ticks w)) (S (draws w)) (sent w ++ [encode (xmitMsgOf env w opt)]).

Definition afterSince (env : Env) (w : World) (opt : QueryOptions) : World :=
  mkWorld (S (S (ticks w))) (S (draws w)) (sent w ++ [encode (xmitMsgOf env w opt)]).

(** The checks on a decoded reply, in the order [getTime] makes them. *)
Definition verdict (xmitMsg recvMsg : msg) (xmitTime : time_Time) (delta : Duration)
  : option msg * ntpTime * option error :=
  if delta <? 0 then (None, 0, Some ClockRanBackwards)
  else if negb (getMode recvMsg =? server) then (None, 0, Some UnexpectedMode)
  else if TransmitTime recvMsg =? 0 then (None, 0, Some InvalidTransmitTime)
  else if negb (OriginTime recvMsg =? TransmitTime xmitMsg) then (None, 0, Some OriginMismatch)
  else if ReceiveTime recvMsg >? TransmitTime recvMsg then (None, 0, Some ServerClockRanBackwards)
  else (Some (with_OriginTime recvMsg (toNtpTime xmitTime)),
        toNtpTime (Add xmitTime delta), None).

(** ** Fixtures: stub transports, a fixed clock, a sample validator *)

(** Modelled from the spec: [Validate] "fails when Leap = NotInSync, when
    Stratum is out of the valid serving range, or when RootDistance exceeds
    a configured maximum"; the serving range is 1 to 15. *)
Definition Validate_spec (maxDistance : Duration) (r : Response) : option error :=
  if RespLeap r =? LeapNotInSync then Some (Foreign "unsynchronized")
  else if (RespStratum r <? 1) || (RespStratum r >? 15) then Some (Foreign "invalid stratum")
  else if RootDistance r >? maxDistance then Some (Foreign "excessive root distance")
  else None.

(** A well-behaved server: it echoes the request's TransmitTime as
    OriginTime and stamps the given receive and transmit times. *)
Definition stubServer (rcv xmt : ntpTime) : RawFunc :=
  fun req =>
    let q := decode req in
    (encode (mkMsg (Z.lor (Z.shiftl (getVersion q) 3) server) 1 0 0 0 0 0 0
                   (TransmitTime q) rcv xmt), None).

(** The same server over a transport that also reports an error. *)
Definition stubNoisy (rcv xmt : ntpTime) : RawFunc :=
  fun req => (fst (stubServer rcv xmt req), Some (Foreign "i/o timeout")).

(** A transport that fails the usual way: no data and an error. *)
Definition stubDown : RawFunc :=
  fun _ => ([], Some (Foreign "i/o timeout")).

(** A server that replies with the given message whatever the request. *)
Definition stubFixed (reply : msg) : RawFunc := fun _ => (encode reply, None).

(** A clock that advances by [step] nanoseconds per reading from [t0]. *)
Definition steadyClock (t0 step : Z) : nat -> time_Time :=
  fun n => mkTime (t0 + step * Z.of_nat n) (Some (step * Z.of_nat n)).

Definition sampleBits : list byte := [x01; x02; x03; x04; x05; x06; x07; x08].

Definition envRandom : Env :=
  mkEnv (steadyClock 3900000000000000000 1000000) (fun _ => inl sampleBits).

Definition envNoRandom : Env :=
  mkEnv (steadyClock 3900000000000000000 1000000)
        (fun _ => inr (Foreign "entropy unavailable")).

(** A clock whose second reading lies before the first, without monotonic
    readings. *)
Definition envBackwards : Env :=
  mkEnv (fun n => mkTime (3900000000000000000 - 1000 * Z.of_nat n) None)
        (fun _ => inl sampleBits).

Definition world0 : World := mkWorld 0 0 [].

(** The specification's synthetic exchange: t1 = 0, t2 = t3 = 1 s, t4 = 2 s,
    in NTP units of 2^-32 s. *)
Definition exampleReply : msg :=
  mkMsg 0 0 0 0 0 0 0 0 0 (1 * 2 ^ 32) (1 * 2 ^ 32).
Definition exampleRecv : ntpTime := 2 * 2 ^ 32.

(** Server timestamps 0.4 ms and 0.5 ms after the fixed clock's origin. *)
Definition sampleRcv : ntpTime := toNtpTime (mkTime 3900000000000400000 None).
Definition sampleXmt : ntpTime := toNtpTime (mkTime 3900000000000500000 None).

(** A datagram source for the default transport. *)
Definition stubNet (payload : list byte) : Net :=
  mkNet (fun _ a => inl a)
        (fun _ _ _ => inl (mkConn (fun _ => None)
                                  (fun _ d => (List.length d, None))
                                  (fun _ => (payload, None))))
        (mkTime 0 (Some 0)).

(** The settings the handler runs with once [MakeDefaultHandler] has
    replaced an unset timeout, protocol or port. *)
Definition effTimeout (Timeout : Duration) : Duration :=
  if Timeout =? 0 then 5 * Second else Timeout.

Definition effProtocol (Protocol : string) : string :=
  if String.eqb Protocol "" then "udp"%string else Protocol.

Definition effPort (Port : string) : string :=
  if String.eqb Port "" then "123"%string else Port.

(** A network whose connections refuse to set a TTL, otherwise [stubNet]. *)
Definition stubNetNoTTL (payload : list byte) : Net :=
  mkNet (fun _ a => inl a)
        (fun _ _ _ => inl (mkConn (fun _ => Some (Foreign "operation not permitted"))
                                  (fun _ d => (List.length d, None))
                                  (fun _ => (payload, None))))
        (mkTime 0 (Some 0)).

(** A network on which no name resolves. *)
Definition stubNetDown : Net :=
  mkNet (fun _ _ => inr (Foreign "no such host"))
        (fun _ _ _ => inr (Foreign "network is unreachable"))
        (mkTime 0 (Some 0)).

(** The fixed clock of [envRandom] after a wall-clock step of one hour
    between the two readings of a query; the monotonic readings agree. *)
Definition envStepped : Env :=
  mkEnv (fun n => match n with
                  | O => steadyClock 3900000000000000000 1000000 0
                  | S _ => mkTime (3900000000000000000 + 3600 * Second)
                                  (Some (1000000 * Z.of_nat n))
                  end)
        (fun _ => inl sampleBits).

(** * Properties *)

(** ** Bytes *)

Lemma to_Z_range b : 0 <= Bytes.to_Z b < 256.
Proof.
  unfold Bytes.to_Z. pose proof (Byte.to_N_bounded b). lia.
Qed.

Lemma to_of_Z v : Bytes.to_Z (Bytes.of_Z v) = v mod 256.
Proof.
  unfold Bytes.of_Z, Bytes.to_Z.
  assert (Hr : 0 <= v mod 256 < 256) by (apply Z.mod_pos_bound; lia).
  destruct (Byte.of_N (Z.to_N (v mod 256))) as [b|] eqn:E.
  - apply Byte.to_of_N in E. rewrite E. lia.
  - apply Byte.of_N_None_iff in E. lia.
Qed.

Lemma be_uint_snoc bs b :
  Bytes.be_uint (bs ++ [b]) = Bytes.be_uint bs * 256 + Bytes.to_Z b.
Proof.
  unfold Bytes.be_uint. rewrite fold_left_app. reflexivity.
Qed.

Lemma be_bytes_length n : forall v, List.length (Bytes.be_bytes n v) = n.
Proof.
  induction n as [|n IH]; intros v; simpl; [reflexivity|].
  rewrite length_app, IH. simpl. lia.
Qed.

Lemma be_uint_bytes n :
  forall v, Bytes.be_uint (Bytes.be_bytes n v) = v mod 256 ^ Z.of_nat n.
Proof.
  induction n as [|n IH]; intros v.
  - simpl. rewrite Z.mod_1_r. reflexivity.
  - cbn [Bytes.be_bytes]. rewrite be_uint_snoc, IH, to_of_Z.
    rewrite Nat2Z.inj_succ, Z.pow_succ_r by lia.
    assert (Hp : 0 < 256 ^ Z.of_nat n) by (apply Z.pow_pos_nonneg; lia).
    rewrite Z.rem_mul_r by lia.
    lia.
Qed.

Lemma be_uint_range bs :
  0 <= Bytes.be_uint bs < 256 ^ Z.of_nat (List.length bs).
Proof.
  induction bs as [|b bs IH] using rev_ind.
  - cbn. lia.
  - rewrite be_uint_snoc, length_app. cbn [List.length].
    replace (Z.of_nat (List.length bs + 1)) with (Z.succ (Z.of_nat (List.length bs))) by lia.
    rewrite Z.pow_succ_r by lia.
    pose proof (to_Z_range b). lia.
Qed.

Lemma Uint64_range bits : 0 <= Uint64 bits < 2 ^ 64.
Proof.
  unfold Uint64.
  pose proof (be_uint_range (firstn 8 bits)) as H.
  pose proof (firstn_le_length 8 bits) as Hl.
  assert (256 ^ Z.of_nat (List.length (firstn 8 bits)) <= 256 ^ 8)
    by (apply Z.pow_le_mono_r; lia).
  change (2 ^ 64) with (256 ^ 8). lia.
Qed.

(** ** Codec *)

Lemma slice_skip (a b : list byte) off len :
  Bytes.slice (List.length a + off) len (a ++ b) = Bytes.slice off len b.
Proof.
  unfold Bytes.slice. rewrite skipn_app, skipn_all2 by lia.
  replace (List.length a + off - List.length a)%nat with off by lia.
  reflexivity.
Qed.

Lemma slice_here (a b : list byte) :
  Bytes.slice 0 (List.length a) (a ++ b) = a.
Proof.
  unfold Bytes.slice. cbn [skipn]. rewrite firstn_app, firstn_all, Nat.sub_diag.
  cbn [firstn]. apply app_nil_r.
Qed.

Lemma encode_length m : List.length (encode m) = msgSize.
Proof.
  unfold encode. rewrite !length_app, !be_bytes_length. reflexivity.
Qed.

(** The last field of an encoded packet reads back as the 64 bits written. *)
Lemma decode_encode_TransmitTime m :
  TransmitTime (decode (encode m)) = TransmitTime m mod 2 ^ 64.
Proof.
  unfold decode, encode. cbn [TransmitTime].
  rewrite !app_assoc.
  match goal with
  | |- Bytes.be_uint (Bytes.slice 40 8 (?a ++ ?b)) = _ =>
      assert (Hl : List.length a = 40%nat)
        by (rewrite !length_app, !be_bytes_length; reflexivity);
      replace 40%nat with (List.length a + 0)%nat at 1 by (rewrite Hl; reflexivity);
      rewrite (slice_skip a b 0 8)
  end.
  rewrite <- (app_nil_r (Bytes.be_bytes 8 (TransmitTime m))).
  replace 8%nat with (List.length (Bytes.be_bytes 8 (TransmitTime m))) at 1
    by apply be_bytes_length.
  rewrite slice_here, be_uint_bytes. reflexivity.
Qed.

Lemma binary_Read_short buf :
  (List.length buf < msgSize)%nat -> exists e, binary_Read buf = inr e.
Proof.
  intros H. unfold binary_Read. destruct buf as [|b buf]; [eauto|].
  destruct (Nat.ltb_spec (List.length (b :: buf)) msgSize); [eauto | lia].
Qed.

Lemma binary_Read_nil : binary_Read [] = inr io_EOF.
Proof. reflexivity. Qed.

Lemma binary_Read_inl buf m : binary_Read buf = inl m -> m = decode buf.
Proof.
  unfold binary_Read. destruct buf as [|b buf]; [discriminate|].
  destruct (List.length (b :: buf) <? msgSize)%nat; congruence.
Qed.

(** ** The two shapes of a run of [getTime] *)

Lemma getTime_invalid env rawFunc opt w :
  validVersion opt = false ->
  getTime env rawFunc opt w = Some ((None, 0, Some InvalidVersion), w).
Proof.
  unfold validVersion, effectiveVersion, getTime. intros H.
  apply negb_false_iff in H. rewrite H. reflexivity.
Qed.

Lemma getTime_valid env rawFunc opt w :
  validVersion opt = true ->
  getTime env rawFunc opt w =
  match binary_Read (fst (rawFunc (encode (xmitMsgOf env w opt)))) with
  | inr e => Some ((None, 0, Some e), afterCall env w opt)
  | inl recvMsg =>
      Some (verdict (xmitMsgOf env w opt) recvMsg (xmitTimeOf env w) (deltaOf env w),
            afterSince env w opt)
  end.
Proof.
  unfold validVersion, getTime. intros H.
  apply negb_true_iff in H. fold (effectiveVersion opt). rewrite H.
  unfold xmitMsgOf, sentTransmitTime, afterCall, afterSince, deltaOf, xmitTimeOf,
    xmitMsgOf, sentTransmitTime, xmitTimeOf.
  unfold bind, rand_Read, time_Now, time_Since, call, ret, bind, time_Now, ret,
    binary_Write.
  cbn [ticks draws sent].
  destruct (random env (draws w)) as [src|e0]; cbn [ticks draws sent];
    match goal with
    | |- context [rawFunc ?r] => destruct (rawFunc r) as [recBuf terr]
    end; cbn [fst];
    (destruct (binary_Read recBuf) as [recvMsg|e]; [|reflexivity]);
    unfold verdict; cbn [TransmitTime with_TransmitTime ticks draws sent];
    repeat match goal with
           | |- context [if ?c then _ else _] => destruct c
           end; reflexivity.
Qed.

Lemma verdict_outcome xmitMsg recvMsg xmitTime delta :
  (exists e, verdict xmitMsg recvMsg xmitTime delta = (None, 0, Some e)) \/
  verdict xmitMsg recvMsg xmitTime delta =
    (Some (with_OriginTime recvMsg (toNtpTime xmitTime)),
     toNtpTime (Add xmitTime delta), None).
Proof.
  unfold verdict.
  repeat match goal with
         | |- context [if ?c then _ else _] => destruct c
         end; eauto.
Qed.

(** Every run ends, either with an error next to a nil message and a zero
    timestamp, or with a message and no error. *)
Lemma getTime_outcome env rawFunc opt w :
  exists w',
    (exists e, getTime env rawFunc opt w = Some ((None, 0, Some e), w')) \/
    (exists m recv, getTime env rawFunc opt w = Some ((Some m, recv, None), w')).
Proof.
  destruct (validVersion opt) eqn:V.
  - rewrite (getTime_valid _ _ _ _ V).
    destruct (binary_Read _) as [recvMsg|e].
    + exists (afterSince env w opt).
      destruct (verdict_outcome (xmitMsgOf env w opt) recvMsg (xmitTimeOf env w)
                  (deltaOf env w)) as [[e He]|Hs]; [left | right].
      * exists e. now rewrite He.
      * do 2 eexists. now rewrite Hs.
    + exists (afterCall env w opt). left. eauto.
  - rewrite (getTime_invalid _ _ _ _ V). exists w. left. eauto.
Qed.

(** ** Claims *)

(** C1 (the code departs from the claim).  The claim: a transport error is
    returned by [getTime] unmodified.  The code assigns the transport's error
    and overwrites it with the outcome of decoding before looking at it.
    With a transport that is down (no data, error "i/o timeout") the caller
    receives [io.EOF]; with a transport that delivers a good reply and
    reports an error all the same, the caller receives no error at all. *)
Theorem getTime_transport_error_lost :
  snd (stubDown (encode (xmitMsgOf envRandom world0 (mkOptions 0))))
    = Some (Foreign "i/o timeout") /\
  getTime envRandom stubDown (mkOptions 0) world0
    = Some ((None, 0, Some io_EOF), afterCall envRandom world0 (mkOptions 0)) /\
  io_EOF <> Foreign "i/o timeout" /\
  snd (stubNoisy sampleRcv sampleXmt (encode (xmitMsgOf envRandom world0 (mkOptions 0))))
    = Some (Foreign "i/o timeout") /\
  exists m recv w',
    getTime envRandom (stubNoisy sampleRcv sampleXmt) (mkOptions 0) world0
      = Some ((Some m, recv, None), w').
Proof.
  split; [reflexivity|]. split; [vm_compute; reflexivity|].
  split; [discriminate|]. split; [reflexivity|].
  do 3 eexists. vm_compute. reflexivity.
Qed.

(** The same in general: whatever error a transport reports next to an empty
    buffer, [getTime] answers [io.EOF]. *)
Lemma getTime_empty_reply env rawFunc opt w :
  validVersion opt = true ->
  fst (rawFunc (encode (xmitMsgOf env w opt))) = [] ->
  getTime env rawFunc opt w = Some ((None, 0, Some io_EOF), afterCall env w opt).
Proof.
  intros V E. rewrite (getTime_valid _ _ _ _ V), E. reflexivity.
Qed.

(** C3.  Version 0 stands for the default version 4, and a version that is
    neither 0 nor one of 2, 3, 4 makes [getTime] fail with InvalidVersion in
    the world it started in: no clock reading, no random draw, and no call
    of the transport (the log of requests is unchanged, and the outcome does
    not depend on the transport). *)
Theorem getTime_version env rawFunc w :
  (forall opt, Version opt = 0 ->
     getTime env rawFunc opt w = getTime env rawFunc (mkOptions 4) w) /\
  (forall opt, Version opt <> 0 -> ~ (2 <= Version opt <= 4) ->
     getTime env rawFunc opt w = Some ((None, 0, Some InvalidVersion), w)).
Proof.
  split.
  - intros opt H. unfold getTime. rewrite H. reflexivity.
  - intros opt H0 H. apply getTime_invalid.
    unfold validVersion, effectiveVersion.
    destruct (Z.eqb_spec (Version opt) 0); [contradiction|].
    apply negb_false_iff, orb_true_iff.
    destruct (Z.ltb_spec (Version opt) 2); [now left | right].
    apply Z.gtb_lt. lia.
Qed.

Lemma getTime_version_witness :
  getTime envRandom (stubServer sampleRcv sampleXmt) (mkOptions 0) world0
    = getTime envRandom (stubServer sampleRcv sampleXmt) (mkOptions 4) world0 /\
  getTime envRandom (stubServer sampleRcv sampleXmt) (mkOptions 5) world0
    = Some ((None, 0, Some InvalidVersion), world0).
Proof.
  split.
  - apply (proj1 (getTime_version envRandom (stubServer sampleRcv sampleXmt) world0)
             (mkOptions 0)).
    reflexivity.
  - apply (proj2 (getTime_version envRandom (stubServer sampleRcv sampleXmt) world0)
             (mkOptions 5)); cbn [Version]; lia.
Defined.

(** C9.  Whenever [getTime] returns an error, the message it returns is nil
    and the receive timestamp is zero; whenever [QueryWithOptions] returns an
    error, the response it returns is nil; and [QueryWithOptions] always
    returns (it never dereferences a nil message). *)
Theorem error_comes_with_nil env rawFunc opt w :
  (forall m recv e w',
     getTime env rawFunc opt w = Some ((m, recv, Some e), w') ->
     m = None /\ recv = 0) /\
  (forall r e w',
     QueryWithOptions env rawFunc opt w = Some ((r, Some e), w') -> r = None) /\
  (exists out w', QueryWithOptions env rawFunc opt w = Some (out, w')).
Proof.
  destruct (getTime_outcome env rawFunc opt w) as [w1 [[e1 H]|[m1 [r1 H]]]].
  - split; [|split].
    + intros m recv e w' H'. rewrite H in H'. now inversion H'.
    + intros r e w'. unfold QueryWithOptions, bind. rewrite H. unfold deref, ret. cbn.
      intros H'. now inversion H'.
    + unfold QueryWithOptions, bind. rewrite H. unfold deref, ret. cbn. eauto.
  - split; [|split].
    + intros m recv e w' H'. rewrite H in H'. discriminate.
    + intros r e w'. unfold QueryWithOptions, bind. rewrite H. unfold deref, ret. cbn.
      discriminate.
    + unfold QueryWithOptions, bind. rewrite H. unfold deref, ret. cbn. eauto.
Qed.

Lemma error_comes_with_nil_witness :
  (@None msg = None /\ 0 = 0) /\ @None Response = None.
Proof.
  pose (T := error_comes_with_nil envRandom stubDown (mkOptions 0) world0).
  split.
  - apply (proj1 T None 0 io_EOF (afterCall envRandom world0 (mkOptions 0))).
    vm_compute. reflexivity.
  - apply (proj1 (proj2 T) None io_EOF (afterCall envRandom world0 (mkOptions 0))).
    vm_compute. reflexivity.
Defined.

(** ** The value on the wire *)

Lemma lor_below a b n :
  0 <= a < 2 ^ n -> 0 <= b < 2 ^ n -> 0 <= Z.lor a b < 2 ^ n.
Proof.
  intros Ha Hb. split; [apply Z.lor_nonneg; lia|].
  destruct (Z.eq_dec a 0) as [->|Na]; [rewrite Z.lor_0_l; lia|].
  destruct (Z.eq_dec b 0) as [->|Nb]; [rewrite Z.lor_0_r; lia|].
  assert (Hl : 0 < Z.lor a b).
  { assert (0 <= Z.lor a b) by (apply Z.lor_nonneg; lia).
    assert (Z.lor a b <> 0) by (rewrite Z.lor_eq_0_iff; lia). lia. }
  apply Z.log2_lt_pow2; [exact Hl|].
  rewrite Z.log2_lor by lia.
  apply Z.max_lub_lt; apply Z.log2_lt_pow2; lia.
Qed.

Lemma toNtpTime_range t : 0 <= toNtpTime t < 2 ^ 64.
Proof.
  unfold toNtpTime, nanoPerSec.
  apply lor_below.
  - rewrite Z.shiftl_mul_pow2 by lia.
    pose proof (Z.mod_pos_bound (wall t / 1000000000) (2 ^ 32)) as H.
    change (2 ^ 64) with (2 ^ 32 * 2 ^ 32). nia.
  - rewrite Z.shiftl_mul_pow2 by lia.
    pose proof (Z.mod_pos_bound (wall t) 1000000000) as H.
    split.
    + apply Z.div_pos; nia.
    + apply Z.lt_trans with (2 ^ 32); [|reflexivity].
      apply Z.div_lt_upper_bound; nia.
Qed.

Lemma sentTransmitTime_range env w : 0 <= sentTransmitTime env w < 2 ^ 64.
Proof.
  unfold sentTransmitTime.
  destruct (random env (draws w)); [apply Uint64_range | apply toNtpTime_range].
Qed.

(** The TransmitTime field of the request as it travels is the value the
    engine keeps in memory and compares the reply's OriginTime with. *)
Lemma request_field env w opt :
  TransmitTime (decode (encode (xmitMsgOf env w opt))) = sentTransmitTime env w.
Proof.
  rewrite decode_encode_TransmitTime. unfold xmitMsgOf. cbn [TransmitTime with_TransmitTime].
  apply Z.mod_small, sentTransmitTime_range.
Qed.

(** C2.  For every reply that was received and decoded, [getTime] succeeds
    only if the four protocol checks hold; and, the local delta being
    non-negative, it succeeds if they hold and otherwise fails with the error
    of the first check that does not: Mode is Server (else UnexpectedMode),
    TransmitTime is non-zero (else InvalidTransmitTime), OriginTime equals
    the TransmitTime placed in the request packet (else OriginMismatch),
    ReceiveTime does not exceed TransmitTime (else ServerClockRanBackwards). *)
Theorem reply_checks env rawFunc opt w reply :
  validVersion opt = true ->
  binary_Read (fst (rawFunc (encode (xmitMsgOf env w opt)))) = inl reply ->
  let sentTT := TransmitTime (decode (encode (xmitMsgOf env w opt))) in
  let checks :=
    getMode reply = server /\ TransmitTime reply <> 0 /\
    OriginTime reply = sentTT /\ ReceiveTime reply <= TransmitTime reply in
  exists m recv err,
    getTime env rawFunc opt w = Some ((m, recv, err), afterSince env w opt) /\
    (err = None -> checks) /\
    (0 <= deltaOf env w ->
       (checks -> err = None) /\
       (getMode reply <> server -> err = Some UnexpectedMode) /\
       (getMode reply = server -> TransmitTime reply = 0 ->
          err = Some InvalidTransmitTime) /\
       (getMode reply = server -> TransmitTime reply <> 0 ->
          OriginTime reply <> sentTT -> err = Some OriginMismatch) /\
       (getMode reply = server -> TransmitTime reply <> 0 ->
          OriginTime reply = sentTT -> ReceiveTime reply > TransmitTime reply ->
          err = Some ServerClockRanBackwards)).
Proof.
  intros V R sentTT checks. subst checks sentTT. rewrite request_field.
  rewrite (getTime_valid _ _ _ _ V), R. unfold verdict.
  replace (TransmitTime (xmitMsgOf env w opt)) with (sentTransmitTime env w)
    by reflexivity.
  destruct (Z.ltb_spec (deltaOf env w) 0).
  { do 3 eexists. split; [reflexivity|]. split; [discriminate | lia]. }
  destruct (Z.eqb_spec (getMode reply) server); cbn [negb].
  2:{ do 3 eexists. split; [reflexivity|].
      repeat split; intros; try congruence; try tauto. }
  destruct (Z.eqb_spec (TransmitTime reply) 0).
  { do 3 eexists. split; [reflexivity|].
    repeat split; intros; try congruence; try tauto. }
  destruct (Z.eqb_spec (OriginTime reply) (sentTransmitTime env w)); cbn [negb].
  2:{ do 3 eexists. split; [reflexivity|].
      repeat split; intros; try congruence; try tauto. }
  destruct (Z.gtb_spec (ReceiveTime reply) (TransmitTime reply)).
  { do 3 eexists. split; [reflexivity|].
    repeat split; intros; try congruence; try tauto; try lia. }
  do 3 eexists. split; [reflexivity|].
  repeat split; intros; try congruence; try tauto; try lia.
Qed.

Lemma reply_checks_witness :
  validVersion (mkOptions 0) = true /\
  0 <= deltaOf envRandom world0 /\
  exists m recv,
    getTime envRandom (stubServer sampleRcv sampleXmt) (mkOptions 0) world0
      = Some ((m, recv, None), afterSince envRandom world0 (mkOptions 0)).
Proof.
  assert (D : 0 <= deltaOf envRandom world0) by (vm_compute; discriminate).
  split; [reflexivity|]. split; [exact D|].
  destruct (reply_checks envRandom (stubServer sampleRcv sampleXmt) (mkOptions 0) world0
              (decode (fst (stubServer sampleRcv sampleXmt
                              (encode (xmitMsgOf envRandom world0 (mkOptions 0))))))
              eq_refl eq_refl)
    as (m & recv & err & Hg & _ & Hd).
  exists m, recv. rewrite Hg.
  replace err with (@None error); [reflexivity|].
  symmetry. apply (proj1 (Hd D)). vm_compute. repeat split; discriminate.
Defined.

(** C4.  Once the reply is decoded the engine measures the local delta
    between the send instant and the receive instant.  A negative delta
    makes [getTime] fail with ClockRanBackwards.  Otherwise the run either
    fails one of the protocol checks, or returns the reply together with the
    receive timestamp [toNtpTime (xmitTime + delta)]. *)
Theorem local_delta env rawFunc opt w reply :
  validVersion opt = true ->
  binary_Read (fst (rawFunc (encode (xmitMsgOf env w opt)))) = inl reply ->
  let xmitTime := clock env (ticks w) in
  let delta := Sub (clock env (S (ticks w))) xmitTime in
  (delta < 0 ->
     getTime env rawFunc opt w
       = Some ((None, 0, Some ClockRanBackwards), afterSince env w opt)) /\
  (0 <= delta ->
     (exists e, e <> ClockRanBackwards /\
        getTime env rawFunc opt w = Some ((None, 0, Some e), afterSince env w opt)) \/
     (exists m,
        getTime env rawFunc opt w
          = Some ((Some m, toNtpTime (Add xmitTime delta), None),
                  afterSince env w opt))).
Proof.
  intros V R xmitTime delta.
  rewrite (getTime_valid _ _ _ _ V), R. unfold verdict.
  change (deltaOf env w) with delta. change (xmitTimeOf env w) with xmitTime.
  split; intros D.
  - destruct (Z.ltb_spec delta 0); [reflexivity | lia].
  - destruct (Z.ltb_spec delta 0); [lia|].
    repeat match goal with
           | |- context [if ?c then _ else _] => destruct c
           end;
      try (left; eexists; split; [|reflexivity]; discriminate).
    right. eexists. reflexivity.
Qed.

Lemma local_delta_witness :
  getTime envBackwards (stubServer sampleRcv sampleXmt) (mkOptions 0) world0
    = Some ((None, 0, Some ClockRanBackwards),
            afterSince envBackwards world0 (mkOptions 0)) /\
  exists m,
    getTime envRandom (stubServer sampleRcv sampleXmt) (mkOptions 0) world0
      = Some ((Some m, toNtpTime (Add (clock envRandom 0) 1000000), None),
              afterSince envRandom world0 (mkOptions 0)).
Proof.
  split.
  - apply (proj1 (local_delta envBackwards (stubServer sampleRcv sampleXmt)
                    (mkOptions 0) world0 _ eq_refl eq_refl)).
    vm_compute. reflexivity.
  - destruct (proj2 (local_delta envRandom (stubServer sampleRcv sampleXmt)
                       (mkOptions 0) world0 _ eq_refl eq_refl))
      as [(e & _ & He)|(m & Hm)].
    + vm_compute. discriminate.
    + exfalso. revert He. vm_compute. discriminate.
    + exists m. exact Hm.
Defined.

(** C5.  On every successful query the message [getTime] returns is the
    decoded reply with its OriginTime replaced by [toNtpTime xmitTime], the
    local send instant; every other field is the decoded reply's.  It is
    this message that [QueryWithOptions] hands to [parseTime] for the offset
    and delay computation. *)
Theorem origin_corrected env rawFunc opt w m recv w' :
  getTime env rawFunc opt w = Some ((Some m, recv, None), w') ->
  exists req reply,
    sent w' = sent w ++ [req] /\
    binary_Read (fst (rawFunc req)) = inl reply /\
    reply = decode (fst (rawFunc req)) /\
    OriginTime m = toNtpTime (clock env (ticks w)) /\
    LiVnMode m = LiVnMode reply /\ Stratum m = Stratum reply /\
    Poll m = Poll reply /\ Precision m = Precision reply /\
    RootDelay m = RootDelay reply /\ RootDispersion m = RootDispersion reply /\
    ReferenceID m = ReferenceID reply /\ ReferenceTime m = ReferenceTime reply /\
    ReceiveTime m = ReceiveTime reply /\ TransmitTime m = TransmitTime reply /\
    QueryWithOptions env rawFunc opt w = Some ((Some (parseTime m recv), None), w').
Proof.
  intros H.
  assert (Q : QueryWithOptions env rawFunc opt w
              = Some ((Some (parseTime m recv), None), w'))
    by (unfold QueryWithOptions, bind; rewrite H; reflexivity).
  destruct (validVersion opt) eqn:V.
  2:{ rewrite (getTime_invalid _ _ _ _ V) in H. discriminate. }
  rewrite (getTime_valid _ _ _ _ V) in H.
  destruct (binary_Read _) as [reply|e] eqn:R; [|discriminate].
  exists (encode (xmitMsgOf env w opt)), reply.
  destruct (verdict_outcome (xmitMsgOf env w opt) reply (xmitTimeOf env w)
              (deltaOf env w)) as [[e He]|Hs].
  - rewrite He in H. discriminate.
  - rewrite Hs in H. inversion H; subst. cbn [sent].
    split; [reflexivity|]. split; [exact R|].
    split; [exact (binary_Read_inl _ _ R)|].
    repeat split. exact Q.
Qed.

Lemma origin_corrected_witness :
  exists m reply,
    OriginTime m = toNtpTime (clock envRandom 0) /\
    OriginTime reply = Uint64 sampleBits /\
    ReceiveTime m = ReceiveTime reply /\ TransmitTime m = TransmitTime reply.
Proof.
  assert (exists m recv,
            getTime envRandom (stubServer sampleRcv sampleXmt) (mkOptions 0) world0
              = Some ((Some m, recv, None), afterSince envRandom world0 (mkOptions 0)))
    as (m & recv & Hg) by (do 2 eexists; vm_compute; reflexivity).
  destruct (origin_corrected envRandom (stubServer sampleRcv sampleXmt)
              (mkOptions 0) world0 m recv _ Hg)
    as (req & reply & Hs & _ & Hd & Ho & H).
  exists m, reply. split; [exact Ho|]. split; [|tauto].
  cbn [sent afterSince world0 app] in Hs. injection Hs as <-.
  rewrite Hd. vm_compute. reflexivity.
Defined.

(** C6.  For every query that builds a request: the request handed to the
    transport carries, in its TransmitTime field, the 64-bit big-endian value
    of the eight bytes read from the random source when that source
    succeeds, and [toNtpTime] of the local clock at send time when it fails.
    In both cases the send instant is kept apart from the packet: it is the
    clock reading, and it is what a successful run uses for the corrected
    OriginTime and for the receive timestamp. *)
Theorem request_TransmitTime env rawFunc opt w :
  validVersion opt = true ->
  let xmitTime := clock env (ticks w) in
  exists out w' req,
    getTime env rawFunc opt w = Some (out, w') /\
    sent w' = sent w ++ [req] /\
    (forall bits, random env (draws w) = inl bits -> List.length bits = 8%nat ->
       TransmitTime (decode req) = Bytes.be_uint bits) /\
    (forall e, random env (draws w) = inr e ->
       TransmitTime (decode req) = toNtpTime xmitTime) /\
    (forall m recv, out = (Some m, recv, None) ->
       OriginTime m = toNtpTime xmitTime /\
       recv = toNtpTime (Add xmitTime (Sub (clock env (S (ticks w))) xmitTime))).
Proof.
  intros V xmitTime.
  assert (Hreq : exists out w',
             getTime env rawFunc opt w = Some (out, w') /\
             sent w' = sent w ++ [encode (xmitMsgOf env w opt)] /\
             forall m recv, out = (Some m, recv, None) ->
               OriginTime m = toNtpTime xmitTime /\
               recv = toNtpTime (Add xmitTime (deltaOf env w))).
  { rewrite (getTime_valid _ _ _ _ V).
    destruct (binary_Read _) as [reply|e].
    - do 2 eexists. split; [reflexivity|]. split; [reflexivity|].
      intros m recv Hv.
      destruct (verdict_outcome (xmitMsgOf env w opt) reply (xmitTimeOf env w)
                  (deltaOf env w)) as [[e He]|Hs].
      + rewrite He in Hv. discriminate.
      + rewrite Hs in Hv. inversion Hv; subst. split; reflexivity.
    - do 2 eexists. split; [reflexivity|]. split; [reflexivity|].
      intros m recv Hv. discriminate. }
  destruct Hreq as (out & w' & Hg & Hs & Hx).
  exists out, w', (encode (xmitMsgOf env w opt)).
  split; [exact Hg|]. split; [exact Hs|].
  rewrite request_field. unfold sentTransmitTime.
  split; [|split].
  - intros bits Hr Hl. rewrite Hr. unfold Uint64.
    rewrite firstn_app, Hl, Nat.sub_diag, firstn_O, app_nil_r.
    assert (F : firstn 8 bits = bits) by (rewrite <- Hl; apply firstn_all).
    rewrite !F. reflexivity.
  - intros e Hr. rewrite Hr. reflexivity.
  - exact Hx.
Qed.

Lemma request_TransmitTime_witness :
  (exists req out w',
     getTime envRandom (stubServer sampleRcv sampleXmt) (mkOptions 0) world0
       = Some (out, w') /\
     sent w' = [req] /\
     TransmitTime (decode req) = 72623859790382856) /\
  (exists req out w',
     getTime envNoRandom (stubServer sampleRcv sampleXmt) (mkOptions 0) world0
       = Some (out, w') /\
     sent w' = [req] /\
     TransmitTime (decode req) = toNtpTime (clock envNoRandom 0)).
Proof.
  split.
  - destruct (request_TransmitTime envRandom (stubServer sampleRcv sampleXmt)
                (mkOptions 0) world0 eq_refl)
      as (out & w' & req & Hg & Hs & Hr & _).
    exists req, out, w'. split; [exact Hg|]. split; [exact Hs|].
    rewrite (Hr sampleBits eq_refl eq_refl). reflexivity.
  - destruct (request_TransmitTime envNoRandom (stubServer sampleRcv sampleXmt)
                (mkOptions 0) world0 eq_refl)
      as (out & w' & req & Hg & Hs & _ & Hc & _).
    exists req, out, w'. split; [exact Hg|]. split; [exact Hs|].
    exact (Hc _ eq_refl).
Defined.

(** [TimeV] in terms of the outcome of the query it runs.  It runs the
    query, then reads the clock once more.  If the
    query fails, it returns that reading, the local system time, together
    with the query's error.  If the query succeeds and [Validate] rejects the
    parsed response, it returns that reading together with the validation
    error.  Only when both succeed does it return the reading advanced by the
    computed ClockOffset, with a nil error.  It always returns. *)
Theorem TimeV_fallback env Validate rawFunc version w :
  let now w1 := clock env (ticks w1) in
  let after w1 := mkWorld (S (ticks w1)) (draws w1) (sent w1) in
  (forall m recv e w1,
     getTime env rawFunc (mkOptions version) w = Some ((m, recv, Some e), w1) ->
     TimeV env Validate rawFunc version w = Some ((now w1, Some e), after w1)) /\
  (forall m recv w1,
     getTime env rawFunc (mkOptions version) w = Some ((Some m, recv, None), w1) ->
     (forall e, Validate (parseTime m recv) = Some e ->
        TimeV env Validate rawFunc version w = Some ((now w1, Some e), after w1)) /\
     (Validate (parseTime m recv) = None ->
        TimeV env Validate rawFunc version w
          = Some ((Add (now w1) (ClockOffset (parseTime m recv)), None), after w1))) /\
  (forall t w2,
     TimeV env Validate rawFunc version w = Some ((t, None), w2) ->
     exists m recv w1,
       getTime env rawFunc (mkOptions version) w = Some ((Some m, recv, None), w1) /\
       Validate (parseTime m recv) = None) /\
  (exists out w2, TimeV env Validate rawFunc version w = Some (out, w2)).
Proof.
  intros now after.
  assert (Herr : forall m recv e w1,
             getTime env rawFunc (mkOptions version) w = Some ((m, recv, Some e), w1) ->
             TimeV env Validate rawFunc version w = Some ((now w1, Some e), after w1)).
  { intros m recv e w1 H. unfold TimeV, bind. rewrite H. reflexivity. }
  assert (Hok : forall m recv w1,
             getTime env rawFunc (mkOptions version) w = Some ((Some m, recv, None), w1) ->
             TimeV env Validate rawFunc version w =
             match Validate (parseTime m recv) with
             | Some e => Some ((now w1, Some e), after w1)
             | None => Some ((Add (now w1) (ClockOffset (parseTime m recv)), None),
                             after w1)
             end).
  { intros m recv w1 H. unfold TimeV, bind. rewrite H. unfold deref, ret.
    destruct (Validate (parseTime m recv)); reflexivity. }
  split; [exact Herr|]. split; [|split].
  - intros m recv w1 H. rewrite (Hok _ _ _ H).
    split; [intros e Hv | intros Hv]; rewrite Hv; reflexivity.
  - intros t w2 H.
    destruct (getTime_outcome env rawFunc (mkOptions version) w)
      as [w1 [[e Hg]|[m [recv Hg]]]].
    + rewrite (Herr _ _ _ _ Hg) in H. discriminate.
    + exists m, recv, w1. split; [exact Hg|].
      rewrite (Hok _ _ _ Hg) in H.
      destruct (Validate (parseTime m recv)); [discriminate | reflexivity].
  - destruct (getTime_outcome env rawFunc (mkOptions version) w)
      as [w1 [[e Hg]|[m [recv Hg]]]].
    + rewrite (Herr _ _ _ _ Hg). eauto.
    + rewrite (Hok _ _ _ Hg). destruct (Validate (parseTime m recv)); eauto.
Qed.

Lemma TimeV_fallback_witness :
  TimeV envRandom (Validate_spec (16 * Second)) stubDown 4 world0
    = Some ((clock envRandom 1, Some io_EOF),
            mkWorld 2 1 [encode (xmitMsgOf envRandom world0 (mkOptions 4))]) /\
  TimeV envRandom (Validate_spec (16 * Second)) (stubServer sampleRcv sampleXmt) 4 world0
    = Some ((Add (clock envRandom 2) (-50000), None),
            mkWorld 3 1 [encode (xmitMsgOf envRandom world0 (mkOptions 4))]).
Proof.
  split.
  - apply (proj1 (TimeV_fallback envRandom (Validate_spec (16 * Second)) stubDown 4 world0)
             None 0 io_EOF (afterCall envRandom world0 (mkOptions 4))).
    vm_compute. reflexivity.
  - apply (proj1 (proj2 (TimeV_fallback envRandom (Validate_spec (16 * Second))
                           (stubServer sampleRcv sampleXmt) 4 world0))
             (with_OriginTime
                (decode (fst (stubServer sampleRcv sampleXmt
                                (encode (xmitMsgOf envRandom world0 (mkOptions 4))))))
                (toNtpTime (clock envRandom 0)))
             (toNtpTime (Add (clock envRandom 0) 1000000))
             (afterSince envRandom world0 (mkOptions 4))).
    + vm_compute. reflexivity.
    + vm_compute. reflexivity.
Defined.

(** C7 (the code departs from the claim).  The claim: whenever the query
    fails, a transport failure included, [TimeV] returns the local system
    time together with a non-nil error.  A transport failure is not a failing
    query for the code: the error the transport returns is overwritten before
    it is read.  With a transport that reports "i/o timeout" next to a
    complete, valid reply, [TimeV] returns the clock advanced by the computed
    offset, not the local time, and a nil error. *)
Theorem TimeV_transport_error_lost :
  snd (stubNoisy sampleRcv sampleXmt (encode (xmitMsgOf envRandom world0 (mkOptions 4))))
    = Some (Foreign "i/o timeout") /\
  TimeV envRandom (Validate_spec (16 * Second)) (stubNoisy sampleRcv sampleXmt) 4 world0
    = Some ((Add (clock envRandom 2) (-50000), None),
            mkWorld 3 1 [encode (xmitMsgOf envRandom world0 (mkOptions 4))]) /\
  Add (clock envRandom 2) (-50000) <> clock envRandom 2.
Proof.
  split; [reflexivity|]. split; [vm_compute; reflexivity|].
  vm_compute. discriminate.
Qed.

(** The usual shape of a transport failure, a reply shorter than a packet
    (no data at all included): [TimeV] reports an error and the local time. *)
Lemma TimeV_short_reply env Validate rawFunc version w :
  validVersion (mkOptions version) = true ->
  (List.length (fst (rawFunc (encode (xmitMsgOf env w (mkOptions version))))) < msgSize)%nat ->
  exists e,
    TimeV env Validate rawFunc version w
      = Some ((clock env (S (ticks w)), Some e),
              mkWorld (S (S (ticks w))) (S (draws w))
                      (sent w ++ [encode (xmitMsgOf env w (mkOptions version))])).
Proof.
  intros V L. destruct (binary_Read_short _ L) as [e He]. exists e.
  unfold TimeV, bind. rewrite (getTime_valid _ _ _ _ V), He. reflexivity.
Qed.

(** ** Offset and delay *)

Lemma toTime_whole s : 0 <= s -> toTime (s * 2 ^ 32) = s * Second.
Proof.
  intros H. unfold toTime, nanoPerSec, Second.
  rewrite Z.shiftr_div_pow2 by lia. rewrite Z.div_mul by lia.
  change 4294967295 with (Z.ones 32). rewrite Z.land_ones by lia.
  rewrite Z.mod_mul by lia. cbn. lia.
Qed.

(** C8, as amended.  With t1 the corrected OriginTime, t2 the server
    ReceiveTime, t3 the server TransmitTime and t4 the local receive
    timestamp, each read as a calendar time, the response has
    RoundTripDelay = (t4 - t1) - (t3 - t2) and
    ClockOffset = ((t2 - t1) + (t3 - t4)) / 2.  For t1 = 0, t2 = t3 = 1 s and
    t4 = 2 s in NTP units the delay is exactly two seconds and the offset
    exactly zero. *)
Theorem parseTime_delay_offset m t4 :
  let T1 := toTime (OriginTime m) in
  let T2 := toTime (ReceiveTime m) in
  let T3 := toTime (TransmitTime m) in
  let T4 := toTime t4 in
  RoundTripDelay (parseTime m t4) = (T4 - T1) - (T3 - T2) /\
  ClockOffset (parseTime m t4) = Z.quot ((T2 - T1) + (T3 - T4)) 2 /\
  RoundTripDelay (parseTime exampleReply exampleRecv) = 2 * Second /\
  ClockOffset (parseTime exampleReply exampleRecv) = 0.
Proof.
  cbv zeta. split; [reflexivity|]. split; [reflexivity|].
  split; vm_compute; reflexivity.
Qed.

(** C8, as stated, fails on its own example: for t1 = 0, t2 = t3 = 1 s and
    t4 = 2 s the delay (t4 - t1) - (t3 - t2) is not one second. *)
Lemma parseTime_example_not_one_second :
  OriginTime exampleReply = 0 /\ ReceiveTime exampleReply = 1 * 2 ^ 32 /\
  TransmitTime exampleReply = 1 * 2 ^ 32 /\ exampleRecv = 2 * 2 ^ 32 /\
  ~ (RoundTripDelay (parseTime exampleReply exampleRecv) = 1 * Second /\
     ClockOffset (parseTime exampleReply exampleRecv) = 0).
Proof.
  repeat (split; [reflexivity|]).
  intros [H _]. revert H. vm_compute. discriminate.
Qed.

(** On whole seconds the delay and the offset are the RFC's formulas on the
    second counts. *)
Lemma parseTime_whole_seconds m s1 s2 s3 s4 :
  0 <= s1 -> 0 <= s2 -> 0 <= s3 -> 0 <= s4 ->
  OriginTime m = s1 * 2 ^ 32 -> ReceiveTime m = s2 * 2 ^ 32 ->
  TransmitTime m = s3 * 2 ^ 32 ->
  RoundTripDelay (parseTime m (s4 * 2 ^ 32)) = ((s4 - s1) - (s3 - s2)) * Second /\
  ClockOffset (parseTime m (s4 * 2 ^ 32))
    = Z.quot (((s2 - s1) + (s3 - s4)) * Second) 2.
Proof.
  intros H1 H2 H3 H4 E1 E2 E3.
  unfold parseTime. cbn [RoundTripDelay ClockOffset].
  rewrite E1, E2, E3, !toTime_whole by assumption.
  unfold Second. split; [lia | apply (f_equal2 Z.quot); [lia | reflexivity]].
Qed.

(** ** The default transport *)

Lemma skipn_zeros k n : skipn k (Bytes.zeros n) = Bytes.zeros (n - k).
Proof.
  unfold Bytes.zeros. revert k. induction n as [|n IH]; intros [|k]; cbn; auto.
Qed.

Lemma read_into_zeros n payload :
  read_into (Bytes.zeros n) payload
    = firstn n payload ++ Bytes.zeros (n - List.length payload).
Proof.
  unfold read_into. rewrite skipn_zeros.
  unfold Bytes.zeros. rewrite repeat_length. reflexivity.
Qed.

Lemma read_into_length buf payload :
  List.length (read_into buf payload) = List.length buf.
Proof.
  unfold read_into. rewrite length_app, length_firstn, length_skipn. lia.
Qed.

(** The handler in terms of the effective settings. *)
Lemma handler_unfold net Host Protocol Port LocalAddress TTL Timeout data :
  MakeDefaultHandler net Host Protocol Port LocalAddress TTL Timeout data =
  match ResolveUDPAddr net (effProtocol Protocol)
          (JoinHostPort Host (effPort Port)) with
  | inr err => ([], Some err)
  | inl raddr =>
      match (if negb (String.eqb LocalAddress "") then
               match ResolveUDPAddr net (effProtocol Protocol)
                       (JoinHostPort LocalAddress "0") with
               | inr err => inr err
               | inl a => inl (Some a)
               end
             else inl None) with
      | inr err => ([], Some err)
      | inl laddr =>
          match DialUDP net (effProtocol Protocol) laddr raddr with
          | inr err => ([], Some err)
          | inl con =>
              match (if negb (TTL =? 0) then SetTTL con TTL else None) with
              | Some err => ([], Some err)
              | None =>
                  let deadline := Add (net_Now net) (effTimeout Timeout) in
                  match snd (conn_Write con deadline data) with
                  | Some err => ([], Some err)
                  | None =>
                      match snd (conn_Read con deadline) with
                      | Some err => ([], Some err)
                      | None =>
                          (read_into (Bytes.zeros (List.length data))
                                     (fst (conn_Read con deadline)), None)
                      end
                  end
              end
          end
      end
  end.
Proof.
  unfold MakeDefaultHandler, effProtocol, effPort, effTimeout.
  destruct (ResolveUDPAddr net _ (JoinHostPort Host _)); [|reflexivity].
  match goal with
  | |- context [match ?l with inl _ => _ | inr _ => _ end] =>
      destruct l; [|reflexivity]
  end.
  destruct (DialUDP net _ _ _) as [con|]; [|reflexivity].
  destruct (if negb (TTL =? 0) then SetTTL con TTL else None); [reflexivity|].
  destruct (snd (conn_Write con _ data)); [reflexivity|].
  destruct (conn_Read con _) as [payload [e|]]; reflexivity.
Qed.

(** C10.  The transport made by [MakeDefaultHandler] ignores how many bytes
    the read delivered.  Whenever a call succeeds, the buffer it returns is
    as long as the request: it holds the leading bytes of the datagram the
    connection's read delivered, followed by zeros up to the request's
    length.  And once the connection is set up and the request written, a
    read that reports no error makes the call succeed with that buffer
    whatever the size of the datagram: one shorter than the request is
    returned zero-padded, with a nil error. *)
Theorem handler_reply_length net Host Protocol Port LocalAddress TTL Timeout data :
  let deadline := Add (net_Now net) (effTimeout Timeout) in
  let padded payload :=
    firstn (List.length data) payload
      ++ Bytes.zeros (List.length data - List.length payload) in
  (forall resp,
     MakeDefaultHandler net Host Protocol Port LocalAddress TTL Timeout data
       = (resp, None) ->
     List.length resp = List.length data /\
     exists raddr laddr con,
       ResolveUDPAddr net (effProtocol Protocol) (JoinHostPort Host (effPort Port))
         = inl raddr /\
       DialUDP net (effProtocol Protocol) laddr raddr = inl con /\
       snd (conn_Read con deadline) = None /\
       resp = padded (fst (conn_Read con deadline))) /\
  (forall raddr laddr con payload,
     ResolveUDPAddr net (effProtocol Protocol) (JoinHostPort Host (effPort Port))
       = inl raddr ->
     (if String.eqb LocalAddress "" then laddr = None
      else exists la,
             ResolveUDPAddr net (effProtocol Protocol)
               (JoinHostPort LocalAddress "0") = inl la /\ laddr = Some la) ->
     DialUDP net (effProtocol Protocol) laddr raddr = inl con ->
     (TTL = 0 \/ SetTTL con TTL = None) ->
     snd (conn_Write con deadline data) = None ->
     conn_Read con deadline = (payload, None) ->
     MakeDefaultHandler net Host Protocol Port LocalAddress TTL Timeout data
       = (padded payload, None)).
Proof.
  cbv zeta. split.
  - intros resp. rewrite handler_unfold. cbv zeta.
    destruct (ResolveUDPAddr net _ (JoinHostPort Host _)) as [raddr|e0] eqn:R;
      [|discriminate].
    match goal with
    | |- context [match ?l with inl _ => _ | inr _ => _ end] =>
        destruct l as [laddr|e0]; [|discriminate]
    end.
    destruct (DialUDP net _ laddr raddr) as [con|e0] eqn:D; [|discriminate].
    destruct (if negb (TTL =? 0) then SetTTL con TTL else None); [discriminate|].
    destruct (snd (conn_Write con _ data)); [discriminate|].
    destruct (snd (conn_Read con _)) eqn:Rd; [discriminate|].
    intros H. inversion H; subst resp. split.
    + rewrite read_into_length. apply repeat_length.
    + exists raddr, laddr, con. repeat split; auto. apply read_into_zeros.
  - intros raddr laddr con payload R La D T W Rd.
    rewrite handler_unfold. cbv zeta. rewrite R.
    assert (HL : (if negb (String.eqb LocalAddress "") then
                    match ResolveUDPAddr net (effProtocol Protocol)
                            (JoinHostPort LocalAddress "0") with
                    | inr err => inr err
                    | inl a => inl (Some a)
                    end
                  else inl None) = inl laddr).
    { destruct (String.eqb LocalAddress ""); cbn [negb].
      - now subst laddr.
      - destruct La as (la & L & ->). now rewrite L. }
    rewrite HL, D.
    assert (HT : (if negb (TTL =? 0) then SetTTL con TTL else None) = None).
    { destruct T as [->|T]; [reflexivity|].
      destruct (negb (TTL =? 0)); [exact T | reflexivity]. }
    rewrite HT, W, Rd. cbn [fst snd]. rewrite read_into_zeros. reflexivity.
Qed.

Lemma handler_reply_length_witness :
  MakeDefaultHandler (stubNet [x01; x02]) "time.example.org" "" "" "" 0 0
      [x09; x09; x09; x09]
    = ([x01; x02; x00; x00], None) /\
  List.length [x01; x02; x00; x00] = List.length [x09; x09; x09; x09].
Proof.
  pose (T := handler_reply_length (stubNet [x01; x02]) "time.example.org" "" "" "" 0 0
               [x09; x09; x09; x09]).
  assert (H : MakeDefaultHandler (stubNet [x01; x02]) "time.example.org" "" "" "" 0 0
                [x09; x09; x09; x09] = ([x01; x02; x00; x00], None)).
  { apply (proj2 T "time.example.org:123"%string None
             (mkConn (fun _ => None) (fun _ d => (List.length d, None))
                     (fun _ => ([x01; x02], None)))
             [x01; x02]); try reflexivity.
    left. reflexivity. }
  split; [exact H|].
  exact (proj1 (proj1 T _ H)).
Defined.

(** Conversely a read that returns no error is never turned into one, short
    datagram or not: with a network that resolves, dials and writes, the
    handler's answer is the zero-padded datagram. *)
Lemma handler_short_datagram payload Host data :
  MakeDefaultHandler (stubNet payload) Host "" "" "" 0 0 data
    = (firstn (List.length data) payload
         ++ Bytes.zeros (List.length data - List.length payload), None).
Proof.
  unfold MakeDefaultHandler, stubNet. cbn.
  rewrite read_into_zeros. reflexivity.
Qed.

(** * Further properties of the code *)

(** ** The default transport, step by step *)

(** X1.  An empty protocol, an empty port and a zero timeout stand for
    "udp", "123" and five seconds: the handler built from them is the
    handler built from the explicit values. *)
Theorem handler_defaults net Host LocalAddress TTL :
  MakeDefaultHandler net Host "" "" LocalAddress TTL 0
    = MakeDefaultHandler net Host "udp" "123" LocalAddress TTL (5 * Second).
Proof. reflexivity. Qed.

(** X2.  A failing call of the handler never hands out data: the buffer is
    nil, and the error is the one reported by a step of the network stack
    (resolving the server, resolving the local address, dialling, setting
    the TTL, writing the request or reading the reply). *)
Theorem handler_failure net Host Protocol Port LocalAddress TTL Timeout data resp e :
  MakeDefaultHandler net Host Protocol Port LocalAddress TTL Timeout data
    = (resp, Some e) ->
  resp = [] /\
  (ResolveUDPAddr net (effProtocol Protocol) (JoinHostPort Host (effPort Port))
     = inr e \/
   (LocalAddress <> ""%string /\
    ResolveUDPAddr net (effProtocol Protocol) (JoinHostPort LocalAddress "0")
      = inr e) \/
   (exists laddr raddr, DialUDP net (effProtocol Protocol) laddr raddr = inr e) \/
   (exists laddr raddr con,
      DialUDP net (effProtocol Protocol) laddr raddr = inl con /\
      let deadline := Add (net_Now net) (effTimeout Timeout) in
      ((TTL <> 0 /\ SetTTL con TTL = Some e) \/
       snd (conn_Write con deadline data) = Some e \/
       snd (conn_Read con deadline) = Some e))).
Proof.
  rewrite handler_unfold.
  destruct (ResolveUDPAddr net _ (JoinHostPort Host _)) as [raddr|e0] eqn:R.
  2:{ intros H. inversion H; subst. split; [reflexivity | now left]. }
  assert (Tail : forall laddr,
    match DialUDP net (effProtocol Protocol) laddr raddr with
    | inr err => ([], Some err)
    | inl con =>
        match (if negb (TTL =? 0) then SetTTL con TTL else None) with
        | Some err => ([], Some err)
        | None =>
            let deadline := Add (net_Now net) (effTimeout Timeout) in
            match snd (conn_Write con deadline data) with
            | Some err => ([], Some err)
            | None =>
                match snd (conn_Read con deadline) with
                | Some err => ([], Some err)
                | None =>
                    (read_into (Bytes.zeros (List.length data))
                               (fst (conn_Read con deadline)), None)
                end
            end
        end
    end = (resp, Some e) ->
    resp = [] /\
    ((exists la ra, DialUDP net (effProtocol Protocol) la ra = inr e) \/
     (exists la ra con,
        DialUDP net (effProtocol Protocol) la ra = inl con /\
        let deadline := Add (net_Now net) (effTimeout Timeout) in
        ((TTL <> 0 /\ SetTTL con TTL = Some e) \/
         snd (conn_Write con deadline data) = Some e \/
         snd (conn_Read con deadline) = Some e)))).
  { intros laddr.
    destruct (DialUDP net _ laddr raddr) as [con|e0] eqn:D.
    2:{ intros H. inversion H; subst. split; [reflexivity|]. left. eauto. }
    destruct (Z.eqb_spec TTL 0) as [Z0|Z0]; cbn [negb].
    - cbv zeta.
      destruct (snd (conn_Write con _ data)) as [e0|] eqn:W.
      { intros H. inversion H; subst. split; [reflexivity|].
        right. exists laddr, raddr, con. split; [exact D|]. cbv zeta. tauto. }
      destruct (snd (conn_Read con _)) as [e0|] eqn:Rd;
        intros H; inversion H; subst.
      split; [reflexivity|].
      right. exists laddr, raddr, con. split; [exact D|]. cbv zeta. tauto.
    - destruct (SetTTL con TTL) as [e0|] eqn:T.
      { intros H. inversion H; subst. split; [reflexivity|].
        right. exists laddr, raddr, con. split; [exact D|]. cbv zeta. tauto. }
      cbv zeta.
      destruct (snd (conn_Write con _ data)) as [e0|] eqn:W.
      { intros H. inversion H; subst. split; [reflexivity|].
        right. exists laddr, raddr, con. split; [exact D|]. cbv zeta. tauto. }
      destruct (snd (conn_Read con _)) as [e0|] eqn:Rd;
        intros H; inversion H; subst.
      split; [reflexivity|].
      right. exists laddr, raddr, con. split; [exact D|]. cbv zeta. tauto. }
  destruct (String.eqb_spec LocalAddress "") as [El|El]; cbn [negb].
  - intros H. destruct (Tail None H) as [Hn Hs]. split; [exact Hn|].
    right; right. exact Hs.
  - destruct (ResolveUDPAddr net _ (JoinHostPort LocalAddress "0")) as [la|e0] eqn:L.
    2:{ intros H. inversion H; subst. split; [reflexivity|]. right; left. tauto. }
    intros H. destruct (Tail (Some la) H) as [Hn Hs]. split; [exact Hn|].
    right; right. exact Hs.
Qed.

Lemma handler_failure_witness :
  MakeDefaultHandler stubNetDown "time.example.org" "" "" "" 0 0 [x09; x09]
    = ([], Some (Foreign "no such host")) /\
  @nil byte = [].
Proof.
  split; [vm_compute; reflexivity|].
  apply (handler_failure stubNetDown "time.example.org" "" "" "" 0 0 [x09; x09]
           [] (Foreign "no such host")).
  vm_compute. reflexivity.
Defined.

(** X3.  A call of the handler succeeds exactly when every step it takes
    succeeds: the server address [Host:Port] resolves; the local address
    [LocalAddress:0] resolves if one is set, and no local address is bound
    otherwise; the dial succeeds; the TTL is accepted if one is requested
    (a zero TTL is never applied); the request is written and the reply read
    without error under the deadline "now plus timeout".  The result is then
    the zeroed buffer of the request's length with the datagram copied in. *)
Theorem handler_success_steps net Host Protocol Port LocalAddress TTL Timeout data resp :
  MakeDefaultHandler net Host Protocol Port LocalAddress TTL Timeout data
    = (resp, None) <->
  exists raddr laddr con,
    ResolveUDPAddr net (effProtocol Protocol) (JoinHostPort Host (effPort Port))
      = inl raddr /\
    ((LocalAddress = ""%string /\ laddr = None) \/
     (LocalAddress <> ""%string /\
      exists la,
        ResolveUDPAddr net (effProtocol Protocol) (JoinHostPort LocalAddress "0")
          = inl la /\ laddr = Some la)) /\
    DialUDP net (effProtocol Protocol) laddr raddr = inl con /\
    (TTL = 0 \/ SetTTL con TTL = None) /\
    snd (conn_Write con (Add (net_Now net) (effTimeout Timeout)) data) = None /\
    snd (conn_Read con (Add (net_Now net) (effTimeout Timeout))) = None /\
    resp = read_into (Bytes.zeros (List.length data))
             (fst (conn_Read con (Add (net_Now net) (effTimeout Timeout)))).
Proof.
  rewrite handler_unfold. cbv zeta. split.
  - destruct (ResolveUDPAddr net _ (JoinHostPort Host _)) as [raddr|e0] eqn:R;
      [|discriminate].
    destruct (String.eqb_spec LocalAddress "") as [El|El]; cbn [negb].
    + destruct (DialUDP net _ None raddr) as [con|e0] eqn:D; [|discriminate].
      destruct (Z.eqb_spec TTL 0) as [Z0|Z0]; cbn [negb].
      * destruct (snd (conn_Write con _ data)) eqn:W; [discriminate|].
        destruct (snd (conn_Read con _)) eqn:Rd; [discriminate|].
        intros H. inversion H; subst resp.
        exists raddr, None, con. repeat split; auto.
      * destruct (SetTTL con TTL) eqn:T; [discriminate|].
        destruct (snd (conn_Write con _ data)) eqn:W; [discriminate|].
        destruct (snd (conn_Read con _)) eqn:Rd; [discriminate|].
        intros H. inversion H; subst resp.
        exists raddr, None, con. repeat split; auto.
    + destruct (ResolveUDPAddr net _ (JoinHostPort LocalAddress "0"))
        as [la|e0] eqn:L; [|discriminate].
      destruct (DialUDP net _ (Some la) raddr) as [con|e0] eqn:D; [|discriminate].
      destruct (Z.eqb_spec TTL 0) as [Z0|Z0]; cbn [negb].
      * destruct (snd (conn_Write con _ data)) eqn:W; [discriminate|].
        destruct (snd (conn_Read con _)) eqn:Rd; [discriminate|].
        intros H. inversion H; subst resp.
        exists raddr, (Some la), con. repeat split; eauto.
      * destruct (SetTTL con TTL) eqn:T; [discriminate|].
        destruct (snd (conn_Write con _ data)) eqn:W; [discriminate|].
        destruct (snd (conn_Read con _)) eqn:Rd; [discriminate|].
        intros H. inversion H; subst resp.
        exists raddr, (Some la), con. repeat split; eauto.
  - intros (raddr & laddr & con & R & La & D & T & W & Rd & ->).
    rewrite R.
    assert (HT : (if negb (TTL =? 0) then SetTTL con TTL else None) = None).
    { destruct T as [->|T]; [reflexivity|].
      destruct (negb (TTL =? 0)); [exact T | reflexivity]. }
    destruct La as [[El ->]|[El (la & L & ->)]].
    + subst LocalAddress. cbn [String.eqb negb].
      rewrite D, HT, W, Rd. reflexivity.
    + destruct (String.eqb_spec LocalAddress ""); [contradiction|]. cbn [negb].
      rewrite L, D, HT, W, Rd. reflexivity.
Qed.

Lemma handler_success_steps_witness :
  MakeDefaultHandler (stubNetNoTTL [x01; x02]) "time.example.org" "" "" "" 0 0
      [x09; x09; x09]
    = ([x01; x02; x00], None).
Proof.
  apply (proj2 (handler_success_steps (stubNetNoTTL [x01; x02])
                  "time.example.org" "" "" "" 0 0 [x09; x09; x09]
                  [x01; x02; x00])).
  exists "time.example.org:123"%string, None,
    (mkConn (fun _ => Some (Foreign "operation not permitted"))
            (fun _ d => (List.length d, None))
            (fun _ => ([x01; x02], None))).
  repeat split; auto.
Defined.

(** ** The exchange *)

(** X4.  A query makes at most one exchange.  With an invalid version
    nothing happens at all.  Otherwise [getTime] draws from the random
    source once, calls the transport exactly once, with a request of 48
    bytes that does not depend on the transport, and reads the clock once or
    twice; [QueryWithOptions] adds no effect of its own. *)
Theorem getTime_effects env rawFunc opt w :
  exists out w',
    getTime env rawFunc opt w = Some (out, w') /\
    (exists r, QueryWithOptions env rawFunc opt w = Some (r, w')) /\
    ((validVersion opt = false /\ w' = w) \/
     (validVersion opt = true /\
      draws w' = S (draws w) /\
      (ticks w' = S (ticks w) \/ ticks w' = S (S (ticks w))) /\
      sent w' = sent w ++ [encode (xmitMsgOf env w opt)] /\
      List.length (encode (xmitMsgOf env w opt)) = 48%nat)).
Proof.
  assert (Q : forall out w', getTime env rawFunc opt w = Some (out, w') ->
                (fst (fst out) = None -> snd out <> None) ->
                exists r, QueryWithOptions env rawFunc opt w = Some (r, w')).
  { intros [[m recv] err] w' H N. unfold QueryWithOptions, bind. rewrite H.
    destruct err as [e|]; [eexists; reflexivity|].
    destruct m as [m|]; [eexists; reflexivity|].
    cbn in N. now destruct N. }
  destruct (validVersion opt) eqn:V.
  - pose proof (getTime_valid env rawFunc opt w V) as H.
    destruct (binary_Read _) as [reply|e].
    + do 2 eexists. split; [exact H|]. split.
      * apply (Q _ _ H).
        destruct (verdict_outcome (xmitMsgOf env w opt) reply (xmitTimeOf env w)
                    (deltaOf env w)) as [[e He]|Hs].
        -- rewrite He. discriminate.
        -- rewrite Hs. discriminate.
      * right. split; [reflexivity|]. cbn [draws ticks sent afterSince].
        repeat split; auto.
    + do 2 eexists. split; [exact H|]. split.
      * apply (Q _ _ H). discriminate.
      * right. split; [reflexivity|]. cbn [draws ticks sent afterCall].
        repeat split; auto.
  - pose proof (getTime_invalid env rawFunc opt w V) as H.
    do 2 eexists. split; [exact H|]. split.
    + apply (Q _ _ H). discriminate.
    + left. split; reflexivity.
Qed.

(** X5.  A reply shorter than a packet is a decode error, whatever the
    transport reported: [io.EOF] for an empty reply, [io.ErrUnexpectedEOF]
    for one of 1 to 47 bytes.  The clock is not read again. *)
Theorem getTime_short_reply env rawFunc opt w :
  validVersion opt = true ->
  let recBuf := fst (rawFunc (encode (xmitMsgOf env w opt))) in
  (List.length recBuf < 48)%nat ->
  getTime env rawFunc opt w
    = Some ((None, 0,
             Some (if (List.length recBuf =? 0)%nat then io_EOF
                   else io_ErrUnexpectedEOF)),
            afterCall env w opt).
Proof.
  intros V recBuf L. rewrite (getTime_valid _ _ _ _ V). fold recBuf.
  unfold binary_Read. destruct recBuf as [|b bs]; [reflexivity|].
  destruct (Nat.ltb_spec (List.length (b :: bs)) msgSize) as [_|G];
    [reflexivity | unfold msgSize in G; lia].
Qed.

Lemma getTime_short_reply_witness :
  getTime envRandom (fun _ => ([x24; x01], None)) (mkOptions 0) world0
    = Some ((None, 0, Some io_ErrUnexpectedEOF),
            afterCall envRandom world0 (mkOptions 0)).
Proof.
  apply (getTime_short_reply envRandom (fun _ => ([x24; x01], None)) (mkOptions 0)
           world0 eq_refl).
  cbn. lia.
Defined.

Lemma slice_app_l (a b : list byte) off len :
  (off + len <= List.length a)%nat ->
  Bytes.slice off len (a ++ b) = Bytes.slice off len a.
Proof.
  intros H. unfold Bytes.slice.
  rewrite skipn_app, firstn_app, length_skipn.
  replace (len - (List.length a - off))%nat with 0%nat by lia.
  rewrite firstn_O. apply app_nil_r.
Qed.

Lemma decode_app buf extra :
  (msgSize <= List.length buf)%nat -> decode (buf ++ extra) = decode buf.
Proof.
  unfold msgSize. intros H. unfold decode.
  rewrite !slice_app_l by (cbn; lia). reflexivity.
Qed.

Lemma binary_Read_app buf extra :
  (msgSize <= List.length buf)%nat ->
  binary_Read (buf ++ extra) = binary_Read buf.
Proof.
  intros H. unfold binary_Read.
  destruct buf as [|b bs]; [unfold msgSize in H; cbn in H; lia|].
  cbn [app].
  change (b :: bs ++ extra) with ((b :: bs) ++ extra).
  destruct (Nat.ltb_spec (List.length ((b :: bs) ++ extra)) msgSize) as [G|_];
    [rewrite length_app in G; lia|].
  destruct (Nat.ltb_spec (List.length (b :: bs)) msgSize) as [G|_]; [lia|].
  now rewrite decode_app.
Qed.

(** X6.  Only the first 48 bytes of a reply count: bytes that follow a
    complete packet are ignored, and the query ends as it does without
    them. *)
Theorem getTime_trailing_bytes env rawFunc opt w extra :
  (48 <= List.length (fst (rawFunc (encode (xmitMsgOf env w opt)))))%nat ->
  getTime env (fun data => (fst (rawFunc data) ++ extra, snd (rawFunc data))) opt w
    = getTime env rawFunc opt w.
Proof.
  intros L. destruct (validVersion opt) eqn:V.
  - rewrite !(getTime_valid _ _ _ _ V). cbn [fst].
    rewrite binary_Read_app by exact L. reflexivity.
  - now rewrite !(getTime_invalid _ _ _ _ V).
Qed.

Lemma getTime_trailing_bytes_witness :
  getTime envRandom
      (fun data => (fst (stubServer sampleRcv sampleXmt data) ++ [xff; xff],
                    snd (stubServer sampleRcv sampleXmt data)))
      (mkOptions 0) world0
    = getTime envRandom (stubServer sampleRcv sampleXmt) (mkOptions 0) world0.
Proof.
  apply (getTime_trailing_bytes envRandom (stubServer sampleRcv sampleXmt)
           (mkOptions 0) world0 [xff; xff]).
  vm_compute. apply le_n.
Defined.

(** X7.  The error a transport returns is never looked at: two transports
    that answer the request with the same bytes make the query end the same
    way, whatever errors they report. *)
Theorem getTime_ignores_transport_error env f g opt w :
  fst (f (encode (xmitMsgOf env w opt))) = fst (g (encode (xmitMsgOf env w opt))) ->
  getTime env f opt w = getTime env g opt w.
Proof.
  intros E. destruct (validVersion opt) eqn:V.
  - rewrite !(getTime_valid _ _ _ _ V), E. reflexivity.
  - now rewrite !(getTime_invalid _ _ _ _ V).
Qed.

Lemma getTime_ignores_transport_error_witness :
  getTime envRandom (stubNoisy sampleRcv sampleXmt) (mkOptions 0) world0
    = getTime envRandom (stubServer sampleRcv sampleXmt) (mkOptions 0) world0.
Proof.
  apply (getTime_ignores_transport_error envRandom (stubNoisy sampleRcv sampleXmt)
           (stubServer sampleRcv sampleXmt) (mkOptions 0) world0).
  reflexivity.
Defined.

(** X8.  The errors a query can end with are the engine's own six and the
    two decode errors; an error value made by the transport is never among
    them. *)
Theorem getTime_error_kinds env rawFunc opt w m recv e w' :
  getTime env rawFunc opt w = Some ((m, recv, Some e), w') ->
  In e [InvalidVersion; io_EOF; io_ErrUnexpectedEOF; ClockRanBackwards;
        UnexpectedMode; InvalidTransmitTime; OriginMismatch;
        ServerClockRanBackwards] /\
  forall s, e <> Foreign s.
Proof.
  intros H.
  assert (K : In e [InvalidVersion; io_EOF; io_ErrUnexpectedEOF; ClockRanBackwards;
                    UnexpectedMode; InvalidTransmitTime; OriginMismatch;
                    ServerClockRanBackwards]).
  { destruct (validVersion opt) eqn:V.
    - rewrite (getTime_valid _ _ _ _ V) in H.
      destruct (fst (rawFunc (encode (xmitMsgOf env w opt)))) as [|b bs] eqn:B.
      + cbn in H. inversion H; subst. cbn. tauto.
      + unfold binary_Read in H.
        destruct (List.length (b :: bs) <? msgSize)%nat.
        * inversion H; subst. cbn. tauto.
        * unfold verdict in H.
          repeat match type of H with
                 | context [if ?c then _ else _] => destruct c
                 end; inversion H; subst; cbn; tauto.
    - rewrite (getTime_invalid _ _ _ _ V) in H. inversion H; subst. cbn. tauto. }
  split; [exact K|].
  intros s ->. cbn in K.
  repeat match type of K with
         | _ \/ _ => destruct K as [K|K]
         end; try discriminate K; exact K.
Qed.

Lemma getTime_error_kinds_witness :
  In io_EOF [InvalidVersion; io_EOF; io_ErrUnexpectedEOF; ClockRanBackwards;
             UnexpectedMode; InvalidTransmitTime; OriginMismatch;
             ServerClockRanBackwards] /\
  forall s, io_EOF <> Foreign s.
Proof.
  apply (getTime_error_kinds envRandom stubDown (mkOptions 0) world0 None 0 io_EOF
           (afterCall envRandom world0 (mkOptions 0))).
  vm_compute. reflexivity.
Defined.

(** X9.  What a successful query guarantees about the message it returns:
    it is a server-mode packet, its TransmitTime is not zero and not before
    its ReceiveTime; the measured local delta was not negative and the clock
    was read exactly twice. *)
Theorem getTime_success_invariants env rawFunc opt w m recv w' :
  getTime env rawFunc opt w = Some ((Some m, recv, None), w') ->
  getMode m = server /\ TransmitTime m <> 0 /\
  ReceiveTime m <= TransmitTime m /\
  0 <= Sub (clock env (S (ticks w))) (clock env (ticks w)) /\
  ticks w' = S (S (ticks w)).
Proof.
  intros H. destruct (validVersion opt) eqn:V.
  2:{ rewrite (getTime_invalid _ _ _ _ V) in H. discriminate. }
  rewrite (getTime_valid _ _ _ _ V) in H.
  destruct (binary_Read _) as [reply|e]; [|discriminate].
  unfold verdict in H. fold (xmitTimeOf env w). fold (deltaOf env w).
  destruct (Z.ltb_spec (deltaOf env w) 0); [discriminate|].
  destruct (Z.eqb_spec (getMode reply) server); cbn [negb] in H; [|discriminate].
  destruct (Z.eqb_spec (TransmitTime reply) 0); [discriminate|].
  destruct (negb _); [discriminate|].
  destruct (Z.gtb_spec (ReceiveTime reply) (TransmitTime reply)); [discriminate|].
  inversion H; subst. cbn [ticks afterSince].
  repeat split; auto; cbn; lia.
Qed.

Lemma getTime_success_invariants_witness :
  exists m, getMode m = server /\ TransmitTime m <> 0 /\
            ReceiveTime m <= TransmitTime m.
Proof.
  assert (exists m recv,
            getTime envRandom (stubServer sampleRcv sampleXmt) (mkOptions 0) world0
              = Some ((Some m, recv, None), afterSince envRandom world0 (mkOptions 0)))
    as (m & recv & Hg) by (do 2 eexists; vm_compute; reflexivity).
  exists m.
  destruct (getTime_success_invariants envRandom (stubServer sampleRcv sampleXmt)
              (mkOptions 0) world0 m recv _ Hg) as (A & B & C & _).
  auto.
Defined.

(** X10.  With monotonic clock readings the query does not see the wall
    clock at receive time: two runs that start from the same send instant
    and whose second readings carry the same monotonic value end the same
    way, however the wall clock moved in between. *)
Theorem getTime_wall_step env1 env2 rawFunc opt w a b :
  random env1 (draws w) = random env2 (draws w) ->
  clock env1 (ticks w) = clock env2 (ticks w) ->
  mono (clock env1 (ticks w)) = Some a ->
  mono (clock env1 (S (ticks w))) = Some b ->
  mono (clock env2 (S (ticks w))) = Some b ->
  getTime env1 rawFunc opt w = getTime env2 rawFunc opt w.
Proof.
  intros R C0 Ma M1 M2. destruct (validVersion opt) eqn:V.
  2:{ now rewrite !(getTime_invalid _ _ _ _ V). }
  rewrite !(getTime_valid _ _ _ _ V).
  assert (X : xmitTimeOf env1 w = xmitTimeOf env2 w) by exact C0.
  assert (S : sentTransmitTime env1 w = sentTransmitTime env2 w)
    by (unfold sentTransmitTime; rewrite R, X; reflexivity).
  assert (Q : xmitMsgOf env1 w opt = xmitMsgOf env2 w opt)
    by (unfold xmitMsgOf; rewrite S; reflexivity).
  assert (D : deltaOf env1 w = deltaOf env2 w).
  { unfold deltaOf, Sub. rewrite <- X. unfold xmitTimeOf. rewrite M1, M2, Ma.
    reflexivity. }
  unfold afterCall, afterSince. rewrite Q, D, X. reflexivity.
Qed.

Lemma getTime_wall_step_witness :
  wall (clock envStepped 1) - wall (clock envRandom 1) = 3599999000000 /\
  getTime envRandom (stubServer sampleRcv sampleXmt) (mkOptions 0) world0
    = getTime envStepped (stubServer sampleRcv sampleXmt) (mkOptions 0) world0.
Proof.
  split; [reflexivity|].
  apply (getTime_wall_step envRandom envStepped (stubServer sampleRcv sampleXmt)
           (mkOptions 0) world0 0 1000000); reflexivity.
Defined.

(** ** The engine over the default transport *)

Lemma handler_shape net Host Protocol Port LocalAddress TTL Timeout data :
  let r := MakeDefaultHandler net Host Protocol Port LocalAddress TTL Timeout data in
  (fst r = [] /\ snd r <> None) \/
  (snd r = None /\ List.length (fst r) = List.length data).
Proof.
  cbv zeta. rewrite handler_unfold.
  destruct (ResolveUDPAddr net _ (JoinHostPort Host _)); [|left; split; [reflexivity | discriminate]].
  match goal with
  | |- context [match ?l with inl _ => _ | inr _ => _ end] =>
      destruct l; [|left; split; [reflexivity | discriminate]]
  end.
  destruct (DialUDP net _ _ _) as [con|]; [|left; split; [reflexivity | discriminate]].
  destruct (if negb (TTL =? 0) then SetTTL con TTL else None);
    [left; split; [reflexivity | discriminate]|].
  cbv zeta.
  destruct (snd (conn_Write con _ data)); [left; split; [reflexivity | discriminate]|].
  destruct (snd (conn_Read con _)); [left; split; [reflexivity | discriminate]|].
  right. cbn [fst snd]. split; [reflexivity|].
  rewrite read_into_length. apply repeat_length.
Qed.

(** X11.  Queries over the default transport.  Whatever step of the network
    fails, the query ends with [io.EOF]: the handler returns a nil buffer,
    and the engine reports the failed decode of it.  When the handler
    succeeds its buffer has the request's 48 bytes, so decoding cannot fail:
    a datagram of any size, an empty one included, goes on to the clock and
    protocol checks. *)
Theorem getTime_default_transport env net Host Protocol Port LocalAddress TTL Timeout opt w :
  validVersion opt = true ->
  let h := MakeDefaultHandler net Host Protocol Port LocalAddress TTL Timeout in
  let req := encode (xmitMsgOf env w opt) in
  (snd (h req) <> None ->
     getTime env h opt w = Some ((None, 0, Some io_EOF), afterCall env w opt)) /\
  (snd (h req) = None ->
     exists out,
       getTime env h opt w = Some (out, afterSince env w opt) /\
       snd out <> Some io_EOF /\ snd out <> Some io_ErrUnexpectedEOF).
Proof.
  intros V. cbv zeta.
  pose proof (handler_shape net Host Protocol Port LocalAddress TTL Timeout
                (encode (xmitMsgOf env w opt))) as S.
  cbv zeta in S.
  set (h := MakeDefaultHandler net Host Protocol Port LocalAddress TTL Timeout) in *.
  set (req := encode (xmitMsgOf env w opt)) in *.
  destruct S as [[Hn He]|[Hs Hl]].
  - split; [|intros K; contradiction].
    intros _. rewrite (getTime_valid _ _ _ _ V). fold req. rewrite Hn. reflexivity.
  - split; [intros K; contradiction|]. intros _.
    rewrite (getTime_valid _ _ _ _ V). fold req.
    unfold req in Hl at 2. rewrite encode_length in Hl.
    unfold binary_Read.
    destruct (fst (h req)) as [|b bs] eqn:B; [discriminate Hl|].
    rewrite Hl, Nat.ltb_irrefl.
    eexists. split; [reflexivity|].
    unfold verdict.
    repeat match goal with
           | |- context [if ?c then _ else _] => destruct c
           end; cbn [snd]; split; discriminate.
Qed.

Lemma getTime_default_transport_witness :
  getTime envRandom (MakeDefaultHandler stubNetDown "time.example.org" "" "" "" 0 0)
      (mkOptions 0) world0
    = Some ((None, 0, Some io_EOF), afterCall envRandom world0 (mkOptions 0)) /\
  exists out,
    getTime envRandom (MakeDefaultHandler (stubNet []) "time.example.org" "" "" "" 0 0)
        (mkOptions 0) world0
      = Some (out, afterSince envRandom world0 (mkOptions 0)) /\
    snd out <> Some io_EOF /\ snd out <> Some io_ErrUnexpectedEOF.
Proof.
  split.
  - apply (proj1 (getTime_default_transport envRandom stubNetDown "time.example.org"
                    "" "" "" 0 0 (mkOptions 0) world0 eq_refl)).
    vm_compute. discriminate.
  - apply (proj2 (getTime_default_transport envRandom (stubNet []) "time.example.org"
                    "" "" "" 0 0 (mkOptions 0) world0 eq_refl)).
    vm_compute. reflexivity.
Defined.

(** ** The compatibility helpers *)

(** X12.  [TimeV] with a version that is neither 0 nor one of 2, 3, 4 makes
    no exchange: it reads the clock once and returns that reading with
    InvalidVersion; the random source and the transport are not touched. *)
Theorem TimeV_invalid_version env Validate rawFunc version w :
  version <> 0 -> ~ (2 <= version <= 4) ->
  TimeV env Validate rawFunc version w
    = Some ((clock env (ticks w), Some InvalidVersion),
            mkWorld (S (ticks w)) (draws w) (sent w)).
Proof.
  intros N R. unfold TimeV, bind.
  rewrite getTime_invalid; [reflexivity|].
  unfold validVersion, effectiveVersion. cbn [Version].
  destruct (Z.eqb_spec version 0); [contradiction|].
  apply negb_false_iff, orb_true_iff.
  destruct (Z.ltb_spec version 2); [now left | right].
  apply Z.gtb_lt. lia.
Qed.

Lemma TimeV_invalid_version_witness :
  TimeV envRandom (Validate_spec (16 * Second)) (stubServer sampleRcv sampleXmt) 1 world0
    = Some ((clock envRandom 0, Some InvalidVersion), mkWorld 1 0 []).
Proof.
  apply (TimeV_invalid_version envRandom (Validate_spec (16 * Second))
           (stubServer sampleRcv sampleXmt) 1 world0); lia.
Defined.

(** X13.  [TimeV] is [QueryWithOptions] followed by [Validate] and one more
    clock reading: if the query returns an error, [TimeV] returns that
    reading and the same error; if it returns a response, [TimeV] returns
    the reading and the validation error, or, the response being valid, the
    reading advanced by the response's ClockOffset. *)
Theorem TimeV_via_Query env Validate rawFunc version w :
  (forall r e w1,
     QueryWithOptions env rawFunc (mkOptions version) w = Some ((r, Some e), w1) ->
     TimeV env Validate rawFunc version w
       = Some ((clock env (ticks w1), Some e),
               mkWorld (S (ticks w1)) (draws w1) (sent w1))) /\
  (forall resp w1,
     QueryWithOptions env rawFunc (mkOptions version) w = Some ((Some resp, None), w1) ->
     TimeV env Validate rawFunc version w
       = Some (match Validate resp with
               | Some e => (clock env (ticks w1), Some e)
               | None => (Add (clock env (ticks w1)) (ClockOffset resp), None)
               end,
               mkWorld (S (ticks w1)) (draws w1) (sent w1))).
Proof.
  destruct (getTime_outcome env rawFunc (mkOptions version) w)
    as [w0 [[e0 Hg]|[m [recv Hg]]]];
    unfold QueryWithOptions, TimeV, bind; rewrite Hg; unfold deref, ret; split.
  - intros r e w1 H. inversion H; subst. reflexivity.
  - intros resp w1 H. discriminate.
  - intros r e w1 H. discriminate.
  - intros resp w1 H. inversion H; subst.
    destruct (Validate (parseTime m recv)); reflexivity.
Qed.

Lemma TimeV_via_Query_witness :
  TimeV envRandom (Validate_spec (16 * Second)) stubDown 3 world0
    = Some ((clock envRandom 1, Some io_EOF),
            mkWorld 2 1 [encode (xmitMsgOf envRandom world0 (mkOptions 3))]).
Proof.
  apply (proj1 (TimeV_via_Query envRandom (Validate_spec (16 * Second)) stubDown 3
                  world0)
           None io_EOF (afterCall envRandom world0 (mkOptions 3))).
  vm_compute. reflexivity.
Defined.

(** X14.  A transport that returns fewer than 48 bytes, none included, makes
    [TimeV] report an error together with the local time read after the
    failed exchange. *)
Theorem TimeV_incomplete_reply env Validate rawFunc version w :
  validVersion (mkOptions version) = true ->
  (List.length (fst (rawFunc (encode (xmitMsgOf env w (mkOptions version))))) < 48)%nat ->
  exists e,
    (e = io_EOF \/ e = io_ErrUnexpectedEOF) /\
    TimeV env Validate rawFunc version w
      = Some ((clock env (S (ticks w)), Some e),
              mkWorld (S (S (ticks w))) (S (draws w))
                      (sent w ++ [encode (xmitMsgOf env w (mkOptions version))])).
Proof.
  intros V L. unfold TimeV, bind. rewrite (getTime_valid _ _ _ _ V).
  unfold binary_Read.
  destruct (fst (rawFunc _)) as [|b bs].
  - exists io_EOF. split; [now left | reflexivity].
  - destruct (Nat.ltb_spec (List.length (b :: bs)) msgSize) as [_|G];
      [|unfold msgSize in G; lia].
    exists io_ErrUnexpectedEOF. split; [now right | reflexivity].
Qed.

Lemma TimeV_incomplete_reply_witness :
  exists e,
    (e = io_EOF \/ e = io_ErrUnexpectedEOF) /\
    TimeV envRandom (Validate_spec (16 * Second)) stubDown 4 world0
      = Some ((clock envRandom 1, Some e),
              mkWorld 2 1 [encode (xmitMsgOf envRandom world0 (mkOptions 4))]).
Proof.
  apply (TimeV_incomplete_reply envRandom (Validate_spec (16 * Second)) stubDown 4
           world0 eq_refl).
  cbn. lia.
Defined.
